(** * Beads: doctor checks, configuration stack, changelog, version tracker,
      and the dolt command

    A shallow embedding of the parts of the beads issue tracker that its
    specification makes claims about:

    - [GoStrings]: the functions of the Go standard library that the code
      calls ([strings], [strconv], [net], [filepath], [os.Getenv]);
    - [Doctor]: [classifyDatabaseError], [CheckDatabaseVersion] and their
      helpers (package [doctor]);
    - [Config]: [GetValueSource], [SaveConfigValue], [setNestedKey],
      [GetFieldStrategies], [GetFieldStrategy] (package [config]);
    - [Changelog]: [getVersionsSince];
    - [VersionTracking]: [trackBdVersion];
    - [DoltCmd]: [setDoltConfig], [testServerConnection],
      [logDoltConfigChange] (command [bd dolt]).

    Go strings are byte strings ([string]); Go [int] is [Z]; Go maps are
    stdpp [gmap]s; process state (environment, disk, standard streams, the
    package-level variables) is threaded explicitly. The definitions come
    first, the properties after them. *)

From Stdlib Require Import ZArith String Ascii List Bool Lia Sorting.Sorted.
From stdpp Require Import base option gmap strings list fin_maps pretty sorting.
From Equations Require Import Equations.

Set Warnings "-register-all".
#[local] Open Scope string_scope.
#[local] Open Scope Z_scope.

(** ** The Go standard-library functions the code calls *)

Module GoStrings.

(** The line feed of Go's [\n]. *)
Definition LF : string := String (ascii_of_nat 10) EmptyString.

(** [strings.Contains(s, substr)]: [substr] occurs in [s]. *)
Fixpoint Contains (s substr : string) : bool :=
  if String.prefix substr s then true
  else match s with
       | EmptyString => false
       | String _ s' => Contains s' substr
       end.

(** [strings.ToUpper] and [strings.ToLower] on ASCII text. *)
Definition upperByte (c : ascii) : ascii :=
  let n := nat_of_ascii c in
  if (97 <=? n)%nat && (n <=? 122)%nat then ascii_of_nat (n - 32) else c.

Definition lowerByte (c : ascii) : ascii :=
  let n := nat_of_ascii c in
  if (65 <=? n)%nat && (n <=? 90)%nat then ascii_of_nat (n + 32) else c.

Fixpoint mapBytes (f : ascii -> ascii) (s : string) : string :=
  match s with
  | EmptyString => EmptyString
  | String c s' => String (f c) (mapBytes f s')
  end.

Definition ToUpper : string -> string := mapBytes upperByte.
Definition ToLower : string -> string := mapBytes lowerByte.

(** [strings.ReplaceAll(s, old, new)] for one-byte [old] and [new], the
    only way the code calls it. *)
Definition ReplaceAll (s : string) (old new : ascii) : string :=
  mapBytes (fun c => if Ascii.eqb c old then new else c) s.

(** [strings.TrimSpace] on ASCII text: tab, line feed, vertical tab, form
    feed, carriage return and space are stripped from both ends. *)
Definition isSpace (c : ascii) : bool :=
  let n := nat_of_ascii c in
  ((9 <=? n)%nat && (n <=? 13)%nat) || (n =? 32)%nat.

Fixpoint TrimLeft (s : string) : string :=
  match s with
  | EmptyString => EmptyString
  | String c s' => if isSpace c then TrimLeft s' else s
  end.

Fixpoint TrimRight (s : string) : string :=
  match s with
  | EmptyString => EmptyString
  | String c s' =>
      match TrimRight s' with
      | EmptyString => if isSpace c then EmptyString else String c EmptyString
      | t => String c t
      end
  end.

Definition TrimSpace (s : string) : string := TrimRight (TrimLeft s).

(** [strconv.Itoa], and the [%d] verb of [fmt]: the decimal numeral. *)
Definition Itoa (i : Z) : string := pretty i.

(** [strconv.Atoi]: an optional sign, then one or more decimal digits, the
    value within the 64-bit [int]; [None] stands for a non-nil error. *)
Definition digitVal (c : ascii) : option Z :=
  let n := Z.of_nat (nat_of_ascii c) in
  if (48 <=? n) && (n <=? 57) then Some (n - 48) else None.

Fixpoint parseDigits (s : string) (acc : Z) : option Z :=
  match s with
  | EmptyString => Some acc
  | String c s' =>
      match digitVal c with
      | Some d => parseDigits s' (10 * acc + d)
      | None => None
      end
  end.

Definition maxInt : Z := 2 ^ 63 - 1.
Definition minInt : Z := - 2 ^ 63.

Definition Atoi (s : string) : option Z :=
  let '(neg, body) :=
    match s with
    | String "-"%char r => (true, r)
    | String "+"%char r => (false, r)
    | _ => (false, s)
    end in
  match body with
  | EmptyString => None
  | _ =>
      match parseDigits body 0 with
      | Some n =>
          let i := if neg : bool then - n else n in
          if (minInt <=? i) && (i <=? maxInt) then Some i else None
      | None => None
      end
  end.

(** [net.JoinHostPort]: a host with a colon is bracketed. *)
Definition JoinHostPort (host port : string) : string :=
  if Contains host ":" then "[" +:+ host +:+ "]:" +:+ port
  else host +:+ ":" +:+ port.

(** [filepath.Join] of a directory and one file name. *)
Definition Join (dir name : string) : string := dir +:+ "/" +:+ name.

(** [os.Getenv]: the empty string for a variable that is not set. *)
Definition Getenv (environ : gmap string string) (key : string) : string :=
  default "" (environ !! key).

End GoStrings.

(** ** Package doctor: database checks *)

Module Doctor.
Import GoStrings.

(** The statuses of a check. *)
Definition StatusOK : string := "ok".
Definition StatusWarning : string := "warning".
Definition StatusError : string := "error".

Record DoctorCheck : Type := mkCheck {
  Name : string;
  Status : string;
  Message : string;
  Detail : string;
  Fix : string;
}.

(** [classifyDatabaseError]: the error type and the recovery steps for an
    error message; the first case of the [switch] that matches decides. *)
Definition classifyDatabaseError (errMsg : string) (jsonlCount : Z) (jsonlAvailable : bool)
  : string * string :=
  if Contains errMsg "database is locked" then
    ("Database is locked",
     "1. Check for running bd processes: ps aux | grep bd" +:+ LF +:+
     "2. Kill any stale processes" +:+ LF +:+
     "3. Run: bd doctor --fix (removes stale lock files including Dolt internal locks)" +:+ LF +:+
     "4. If still stuck, manually remove: rm .beads/dolt-access.lock .beads/dolt/*/.dolt/noms/LOCK")
  else if Contains errMsg "not a database" || Contains errMsg "file is not a database" then
    ("File is not a valid SQLite database",
     if jsonlAvailable then
       "Database file is corrupted beyond repair." +:+ LF +:+ LF +:+
       "Recovery steps:" +:+ LF +:+
       "1. Backup corrupt database: mv .beads/beads.db .beads/beads.db.broken" +:+ LF +:+
       "2. Rebuild from JSONL (" +:+ Itoa jsonlCount +:+ " issues): bd doctor --fix --force --source=jsonl" +:+ LF +:+
       "3. Verify: bd stats"
     else
       "Database file is corrupted and no JSONL backup found." +:+ LF +:+
       "Manual recovery required:" +:+ LF +:+
       "1. Restore from git: git checkout HEAD -- .beads/issues.jsonl" +:+ LF +:+
       "2. Rebuild database: bd doctor --fix --force")
  else if Contains errMsg "migration" || Contains errMsg "validation failed" then
    ("Database migration or validation failed",
     if jsonlAvailable then
       "Database has validation errors (possibly orphaned dependencies)." +:+ LF +:+ LF +:+
       "Recovery steps:" +:+ LF +:+
       "1. Backup database: mv .beads/beads.db .beads/beads.db.broken" +:+ LF +:+
       "2. Rebuild from JSONL (" +:+ Itoa jsonlCount +:+ " issues): bd doctor --fix --force --source=jsonl" +:+ LF +:+
       "3. Verify: bd stats" +:+ LF +:+ LF +:+
       "Alternative: bd doctor --fix --force (attempts to repair in-place)"
     else
       "Database validation failed and no JSONL backup available." +:+ LF +:+
       "Try: bd doctor --fix --force")
  else
    ("Failed to open database",
     if jsonlAvailable then
       "Run 'bd doctor --fix --source=jsonl' to rebuild from JSONL (" +:+ Itoa jsonlCount +:+ " issues)"
     else
       "Run 'bd doctor --fix --force' to attempt recovery").

(** *** What [CheckDatabaseVersion] reads from outside *)

(** [os.Stat]: found (a directory or not), not found, or another error. *)
Inductive StatResult : Type :=
| StatFound (isDir : bool)
| StatNotExist
| StatFailed.

(** One scanned line of a JSONL file: empty, not JSON, or a JSON object
    with the string under its [id] key (if it has one). *)
Inductive JSONLLine : Type :=
| EmptyLine
| Malformed
| Object (id : option string).

(** A JSONL file as [bufio.Scanner] delivers it: the lines scanned, and
    the error the scanner ended with, if any. *)
Record JSONLFile : Type := { lines : list JSONLLine; scanErr : option string }.

(** A SQLite database opened read-only: the [bd_version] row of the
    metadata table ([None]: the scan failed), and whether [sqlite_master]
    has no metadata table ([sql.ErrNoRows]). *)
Record SqliteDB : Type := { versionRow : option string; metadataErrNoRows : bool }.

(** A dolt store opened read-only: [GetMetadata], a value or an error. *)
Record DoltStore : Type := { GetMetadata : string -> string + string }.

(** [configfile.Config] as the checks use it. *)
Record Config : Type := { Database : string }.

(** The [config.yaml] structure for no-db detection. *)
Record localConfig : Type := { SyncBranch : string; NoDb : bool }.

(** Everything the check reads: the helper [getBackendAndBeadsDir] (of
    another file of the package), the file system, the YAML decoder, [configfile.Load] (an error, no
    file, or a config), [Config.DatabasePath], the SQLite driver and the
    dolt store. *)
Record Env : Type := {
  getBackendAndBeadsDir : string -> string * string;
  Stat : string -> StatResult;
  ReadFile : string -> option string;
  OpenJSONL : string -> JSONLFile + string;
  yamlUnmarshal : string -> option localConfig;
  configfileLoad : string -> option (option Config);
  DatabasePath : Config -> string -> string;
  sqlOpen : string -> option SqliteDB;
  doltNewFromConfig : string -> DoltStore + string;
}.

Definition BackendDolt : string := "dolt".

(** Modelled from the spec: the constant [beads.CanonicalDatabaseName] is
    declared in package [beads]; the on-disk layout names the
    embedded database [beads.db], as the check's own message does. *)
Definition CanonicalDatabaseName : string := "beads.db".

(** [err == nil] and [os.IsNotExist(err)] of an [os.Stat]. *)
Definition statOk (r : StatResult) : bool :=
  match r with StatFound _ => true | _ => false end.

Definition IsNotExist (r : StatResult) : bool :=
  match r with StatNotExist => true | _ => false end.

(** [isNoDbModeConfigured]: [no-db: true] is set in [config.yaml]. *)
Definition isNoDbModeConfigured (env : Env) (beadsDir : string) : bool :=
  let configPath := Join beadsDir "config.yaml" in
  match ReadFile env configPath with
  | None => false
  | Some data =>
      match yamlUnmarshal env data with
      | None => false
      | Some cfg => NoDb cfg
      end
  end.

(** [getDatabaseVersionFromPath]: the version row, [pre-0.17.5] when there
    is no metadata table, [unknown] otherwise. *)
Definition getDatabaseVersionFromPath (env : Env) (dbPath : string) : string :=
  match sqlOpen env dbPath with
  | None => "unknown"
  | Some db =>
      match versionRow db with
      | Some version => version
      | None => if metadataErrNoRows db then "pre-0.17.5" else "unknown"
      end
  end.

(** [id[:lastDash]]: what stands before the last dash of an id. *)
Fixpoint beforeLastDash (id : string) : option string :=
  match id with
  | EmptyString => None
  | String c r =>
      match beforeLastDash r with
      | Some p => Some (String c p)
      | None => if Ascii.eqb c "-" then Some EmptyString else None
      end
  end.

(** [prefixes[k]++] *)
Definition increment (k : string) (prefixes : gmap string Z) : gmap string Z :=
  <[k := default 0 (prefixes !! k) + 1]> prefixes.

(** The scanner loop of [CountJSONLIssues]. *)
Fixpoint scanLines (ls : list JSONLLine) (count : Z) (prefixes : gmap string Z) (errorCount : Z)
  : Z * gmap string Z * Z :=
  match ls with
  | [] => (count, prefixes, errorCount)
  | EmptyLine :: rest => scanLines rest count prefixes errorCount
  | Malformed :: rest => scanLines rest count prefixes (errorCount + 1)
  | Object None :: rest => scanLines rest count prefixes errorCount
  | Object (Some id) :: rest =>
      if String.eqb id "" then scanLines rest count prefixes errorCount
      else
        let k := match beforeLastDash id with Some p => p | None => id end in
        scanLines rest (count + 1) (increment k prefixes) errorCount
  end.

(** [CountJSONLIssues]: the count, the prefixes, and an error if any. *)
Definition CountJSONLIssues (env : Env) (jsonlPath : string)
  : Z * gmap string Z * option string :=
  match OpenJSONL env jsonlPath with
  | inr err => (0, ∅, Some ("failed to open JSONL file: " +:+ err))
  | inl file =>
      let '(count, prefixes, errorCount) := scanLines (lines file) 0 ∅ 0 in
      match scanErr file with
      | Some err => (count, prefixes, Some ("failed to read JSONL file: " +:+ err))
      | None =>
          if 0 <? errorCount then
            (count, prefixes, Some ("skipped " +:+ Itoa errorCount +:+ " malformed lines in JSONL"))
          else (count, prefixes, None)
      end
  end.

Definition countIssuesInJSONLFile (env : Env) (jsonlPath : string) : Z :=
  let '(count, _, _) := CountJSONLIssues env jsonlPath in count.

(** [detectPrefixFromJSONL]: the most common prefix. Go ranges over the
    map in no fixed order; the fold takes the keys in the order of
    [map_to_list]. *)
Definition detectPrefixFromJSONL (env : Env) (jsonlPath : string) : string :=
  let '(_, prefixes, _) := CountJSONLIssues env jsonlPath in
  if bool_decide (prefixes = ∅) then ""
  else
    fst (map_fold (fun (prefix : string) (count : Z) (acc : string * Z) =>
                     if snd acc <? count then (prefix, count) else acc)
                  ("", 0) prefixes).

(** The database path the SQLite checks use: the name in [metadata.json]
    if there is one, else the canonical name. *)
Definition sqliteDbPath (env : Env) (beadsDir : string) : string :=
  match configfileLoad env beadsDir with
  | Some (Some cfg) =>
      if String.eqb (Database cfg) "" then Join beadsDir CanonicalDatabaseName
      else DatabasePath env cfg beadsDir
  | _ => Join beadsDir CanonicalDatabaseName
  end.

(** The dolt branch of [CheckDatabaseVersion], once the dolt directory is
    known to exist. *)
Definition checkDoltVersion (env : Env) (beadsDir cliVersion : string) : DoctorCheck :=
  match doltNewFromConfig env beadsDir with
  | inr err =>
      mkCheck "Database" StatusError "Unable to open database"
        ("Storage: Dolt" +:+ LF +:+ LF +:+ "Error: " +:+ err)
        "Run 'bd doctor --fix' to recover from JSONL backup, or manually: rm -rf .beads/dolt && bd init"
  | inl store =>
      match GetMetadata store "bd_version" with
      | inr err =>
          mkCheck "Database" StatusError "Unable to read database version"
            ("Storage: Dolt" +:+ LF +:+ LF +:+ "Error: " +:+ err)
            "Database may be corrupted. Run 'bd doctor --fix' to recover from JSONL backup"
      | inl dbVersion =>
          if String.eqb dbVersion "" then
            mkCheck "Database" StatusWarning "Database missing version metadata"
              "Storage: Dolt" "Run 'bd doctor --fix' to repair metadata"
          else if negb (String.eqb dbVersion cliVersion) then
            mkCheck "Database" StatusWarning
              ("version " +:+ dbVersion +:+ " (CLI: " +:+ cliVersion +:+ ")")
              "Storage: Dolt"
              "Update bd CLI and re-run (dolt metadata will be updated automatically)"
          else
            mkCheck "Database" StatusOK ("version " +:+ dbVersion) "Storage: Dolt" ""
      end
  end.

(** The SQLite branch of [CheckDatabaseVersion], once the database file is
    known not to be missing. *)
Definition checkSqliteVersion (env : Env) (dbPath cliVersion : string) : DoctorCheck :=
  let dbVersion := getDatabaseVersionFromPath env dbPath in
  if String.eqb dbVersion "unknown" then
    mkCheck "Database" StatusError "Unable to read database version"
      "Storage: SQLite" "Database may be corrupted. Try 'bd migrate'"
  else if String.eqb dbVersion "pre-0.17.5" then
    mkCheck "Database" StatusWarning ("version " +:+ dbVersion +:+ " (very old)")
      "Storage: SQLite" "Run 'bd migrate' to upgrade database schema"
  else if negb (String.eqb dbVersion cliVersion) then
    mkCheck "Database" StatusWarning
      ("version " +:+ dbVersion +:+ " (CLI: " +:+ cliVersion +:+ ")")
      "Storage: SQLite" "Run 'bd migrate' to sync database with CLI version"
  else
    mkCheck "Database" StatusOK ("version " +:+ dbVersion) "Storage: SQLite" "".

(** [CheckDatabaseVersion]: the database version and migration status. *)
Definition CheckDatabaseVersion (env : Env) (path cliVersion : string) : DoctorCheck :=
  let '(backend, beadsDir) := getBackendAndBeadsDir env path in
  let issuesJSONL := Join beadsDir "issues.jsonl" in
  let beadsJSONL := Join beadsDir "beads.jsonl" in
  if String.eqb backend BackendDolt then
    let doltPath := Join beadsDir "dolt" in
    if IsNotExist (Stat env doltPath) then
      if statOk (Stat env issuesJSONL) || statOk (Stat env beadsJSONL) then
        mkCheck "Database" StatusWarning "Fresh clone detected (no dolt database)"
          "Storage: Dolt" "Run 'bd init' to create and hydrate the dolt database"
      else
        mkCheck "Database" StatusError "No dolt database found"
          "Storage: Dolt" "Run 'bd init' to create database"
    else checkDoltVersion env beadsDir cliVersion
  else
    let dbPath := sqliteDbPath env beadsDir in
    if IsNotExist (Stat env dbPath) then
      let jsonlPath :=
        if statOk (Stat env issuesJSONL) then issuesJSONL
        else if statOk (Stat env beadsJSONL) then beadsJSONL
        else "" in
      if negb (String.eqb jsonlPath "") then
        if isNoDbModeConfigured env beadsDir then
          mkCheck "Database" StatusOK "JSONL-only mode"
            "Using issues.jsonl (no SQLite database)" ""
        else
          let issueCount := countIssuesInJSONLFile env jsonlPath in
          let prefix := detectPrefixFromJSONL env jsonlPath in
          let message := "Fresh clone detected (no database)" in
          let detail :=
            "Found " +:+ Itoa issueCount +:+ " issue(s) in JSONL that need to be imported" in
          let fix_ :=
            if negb (String.eqb prefix "") then
              "Run 'bd init' to hydrate the database (detected prefix: " +:+ prefix +:+ ")"
            else "Run 'bd init' to hydrate the database from JSONL" in
          mkCheck "Database" StatusWarning message detail fix_
      else
        mkCheck "Database" StatusError "No beads.db found" "" "Run 'bd init' to create database"
    else checkSqliteVersion env dbPath cliVersion.

(** An environment for running the check on: a [.beads] directory with
    the given files, a two-issue JSONL file, no [metadata.json], and a
    [config.yaml] that sets [no-db] or not. *)
Definition sampleEnv (backend : string) (present : list string) (noDb : bool) : Env := {|
  getBackendAndBeadsDir := fun _ => (backend, ".beads");
  Stat := fun p => if bool_decide (p ∈ present) then StatFound false else StatNotExist;
  ReadFile := fun p =>
    if String.eqb p ".beads/config.yaml"
    then Some (if noDb then "no-db: true" else "sync-branch: main") else None;
  OpenJSONL := fun p =>
    if bool_decide (p ∈ present)
    then inl {| lines := [Object (Some "bd-a1"); EmptyLine; Object (Some "bd-b2")]; scanErr := None |}
    else inr "no such file or directory";
  yamlUnmarshal := fun data =>
    Some {| SyncBranch := ""; NoDb := String.eqb data "no-db: true" |};
  configfileLoad := fun _ => Some None;
  DatabasePath := fun cfg beadsDir => Join beadsDir (Database cfg);
  sqlOpen := fun _ => None;
  doltNewFromConfig := fun _ => inr "database not found";
|}.

End Doctor.

(** ** Package config: the configuration stack *)

Module Config.
Import GoStrings.

(** A configuration value, as YAML decodes it into [interface{}]. *)
Inductive Value : Type :=
| VString (s : string)
| VBool (b : bool)
| VInt (i : Z)
| VList (l : list Value)
| VMap (m : gmap string Value).

(** *** The viper singleton

    The part of a [*viper.Viper] the package relies on: the config file
    in use, and the three layers a key is looked up in besides the
    environment (values set by [Set], values read from the config files,
    defaults), each keyed by the lower-cased dotted key. *)
Record Viper : Type := mkViper {
  configFile : string;
  override : gmap string Value;
  config : gmap string Value;
  defaults : gmap string Value;
}.

(** [v.ConfigFileUsed()], [v.SetConfigFile(path)], [v.Set(key, value)]. *)
Definition ConfigFileUsed (vp : Viper) : string := configFile vp.

Definition SetConfigFile (path : string) (vp : Viper) : Viper :=
  mkViper path (override vp) (config vp) (defaults vp).

Definition Viper_Set (key : string) (value : Value) (vp : Viper) : Viper :=
  mkViper (configFile vp) (<[ToLower key := value]> (override vp)) (config vp) (defaults vp).

(** [v.InConfig(key)]: the key is set in the config file. *)
Definition InConfig (vp : Viper) (key : string) : bool :=
  bool_decide (is_Some (config vp !! ToLower key)).

(** The name of the environment variable of a key under a prefix: hyphens
    and dots become underscores, letters are upper-cased. *)
Definition envKeyOf (prefix key : string) : string :=
  prefix +:+ ToUpper (ReplaceAll (ReplaceAll key "-" "_") "." "_").

(** [v.Get(key)]: a value set by [Set], else the variable that
    [AutomaticEnv] binds under the prefix [BD] (when it is not empty), else
    the config file, else the default. *)
Definition Viper_Get (vp : Viper) (environ : gmap string string) (key : string)
  : option Value :=
  match override vp !! ToLower key with
  | Some x => Some x
  | None =>
      let e := Getenv environ (envKeyOf "BD_" key) in
      if negb (String.eqb e "") then Some (VString e)
      else match config vp !! ToLower key with
           | Some x => Some x
           | None => defaults vp !! ToLower key
           end
  end.

(** The casts of [GetString] and [GetStringMapString]. *)
Definition toString (x : Value) : string :=
  match x with
  | VString s => s
  | VBool b => if b then "true" else "false"
  | VInt i => Itoa i
  | _ => ""
  end.

Definition toStringMapString (x : Value) : gmap string string :=
  match x with
  | VMap m => toString <$> m
  | _ => ∅
  end.

Definition Viper_GetString (vp : Viper) (environ : gmap string string) (key : string) : string :=
  match Viper_Get vp environ key with Some x => toString x | None => "" end.

Definition Viper_GetStringMapString (vp : Viper) (environ : gmap string string) (key : string)
  : gmap string string :=
  match Viper_Get vp environ key with Some x => toStringMapString x | None => ∅ end.

(** *** The state of the package *)

(** A file on disk: a YAML mapping (what [yaml.Unmarshal] decodes and
    [yaml.Marshal] writes), or data that does not decode into a mapping. *)
Inductive FileContent : Type :=
| YamlDoc (doc : gmap string Value)
| NotYaml (data : string).

(** The package variable [v], the process environment, the disk, the paths
    that cannot be written, and what [logConfigWarning] was called with
    (the format and its arguments). *)
Record State : Type := mkState {
  v : option Viper;
  environ : gmap string string;
  disk : gmap string FileContent;
  readOnly : gset string;
  warnings : list (string * list string);
}.

Definition setViper (vp : Viper) (st : State) : State :=
  mkState (Some vp) (environ st) (disk st) (readOnly st) (warnings st).

Definition logConfigWarning (format : string) (args : list string) (st : State) : State :=
  mkState (v st) (environ st) (disk st) (readOnly st) (warnings st ++ [(format, args)]).

(** [os.WriteFile]: an error ([Some]) on a path that cannot be written. *)
Definition WriteFile (path : string) (content : FileContent) (st : State)
  : option string * State :=
  if bool_decide (path ∈ readOnly st) then (Some ("open " +:+ path +:+ ": permission denied"), st)
  else (None, mkState (v st) (environ st) (<[path := content]> (disk st)) (readOnly st) (warnings st)).

(** *** Where a value comes from *)

Inductive ConfigSource : Type :=
| SourceDefault
| SourceConfigFile
| SourceEnvVar
| SourceFlag.

(** [GetValueSource]: env var > config file > default. *)
Definition GetValueSource (key : string) (st : State) : ConfigSource :=
  match v st with
  | None => SourceDefault
  | Some vp =>
      let envKey := "BD_" +:+ ToUpper (ReplaceAll (ReplaceAll key "-" "_") "." "_") in
      if negb (String.eqb (Getenv (environ st) envKey) "") then SourceEnvVar
      else
        let beadsEnvKey := "BEADS_" +:+ ToUpper (ReplaceAll (ReplaceAll key "-" "_") "." "_") in
        if negb (String.eqb (Getenv (environ st) beadsEnvKey) "") then SourceEnvVar
        else if InConfig vp key then SourceConfigFile
        else SourceDefault
  end.

(** *** Conflict strategies *)

(** Modelled from the spec: the strategy constants and validity tables are
    declared in another file of the package. The spec lists the field strategies
    [newest], [ours], [theirs], [manual], [union], [max] and the global
    strategies [newest], [ours], [theirs], [manual]. *)
Definition FieldStrategyNewest : string := "newest".
Definition ConflictStrategyNewest : string := "newest".

Definition ValidFieldStrategies : list string :=
  ["newest"; "ours"; "theirs"; "manual"; "union"; "max"].

Definition validFieldStrategies (strategy : string) : bool :=
  bool_decide (strategy ∈ ValidFieldStrategies).

Definition validConflictStrategies (strategy : string) : bool :=
  bool_decide (strategy ∈ ["newest"; "ours"; "theirs"; "manual"]).

(** [strings.Join(elems, sep)]. *)
Fixpoint Join_strings (elems : list string) (sep : string) : string :=
  match elems with
  | [] => ""
  | [x] => x
  | x :: rest => x +:+ sep +:+ Join_strings rest sep
  end.

(** Modelled from the spec: [GetConflictStrategy], the globally configured
    strategy, is defined in another file of the package. It reads
    [conflict.strategy], whose default is [newest] and whose values are
    [newest], [ours], [theirs], [manual]; anything else counts as the
    default. *)
Definition GetConflictStrategy (st : State) : string :=
  match v st with
  | None => ConflictStrategyNewest
  | Some vp =>
      let strategy :=
        ToLower (TrimSpace (Viper_GetString vp (environ st) "conflict.strategy")) in
      if validConflictStrategies strategy then strategy else ConflictStrategyNewest
  end.

(** One turn of the loop of [GetFieldStrategies]. *)
Definition fieldStrategyStep (field strategyStr : string)
  (acc : gmap string string * State) : gmap string string * State :=
  let '(result, st) := acc in
  let strategy := ToLower (TrimSpace strategyStr) in
  if negb (validFieldStrategies strategy) then
    (result,
     logConfigWarning
       ("Warning: invalid conflict.fields.%s strategy %q (valid: %s), skipping" +:+ LF)
       [field; strategyStr; Join_strings ValidFieldStrategies ", "] st)
  else (<[field := strategy]> result, st).

(** [GetFieldStrategies]: the per-field strategies of [conflict.fields];
    invalid strategies are logged and skipped. Go ranges over the map in
    no fixed order; the fold takes the fields in the order of
    [map_to_list]. *)
Definition GetFieldStrategies (st : State) : gmap string string * State :=
  match v st with
  | None => (∅, st)
  | Some vp =>
      let fieldsMap := Viper_GetStringMapString vp (environ st) "conflict.fields" in
      map_fold fieldStrategyStep (∅, st) fieldsMap
  end.

(** [GetFieldStrategy]: the per-field strategy if configured, otherwise
    [newest]. *)
Definition GetFieldStrategy (field : string) (st : State) : string * State :=
  let '(fields, st') := GetFieldStrategies st in
  match fields !! field with
  | Some strategy => (strategy, st')
  | None => (FieldStrategyNewest, st')
  end.

(** What the loop of [GetFieldStrategies] keeps of a configured strategy. *)
Definition keptStrategy (strategyStr : string) : option string :=
  let strategy := ToLower (TrimSpace strategyStr) in
  if validFieldStrategies strategy then Some strategy else None.

(** The warning the loop logs for a field. *)
Definition invalidStrategyWarning (field strategyStr : string) : string * list string :=
  ("Warning: invalid conflict.fields.%s strategy %q (valid: %s), skipping" +:+ LF,
   [field; strategyStr; Join_strings ValidFieldStrategies ", "]).

(** *** Writing one key to the config file *)

(** [strings.SplitN(key, ".", 2)]: [None] when there is one part only,
    else the part before the first dot and the rest. *)
Fixpoint SplitN2 (key : string) : option (string * string) :=
  match key with
  | EmptyString => None
  | String c rest =>
      if Ascii.eqb c "." then Some (EmptyString, rest)
      else match SplitN2 rest with
           | Some (part0, part1) => Some (String c part0, part1)
           | None => None
           end
  end.

(** [m[parts[0]].(map[string]interface{})]: the nested mapping under a
    key, or a new one when the key is missing or holds something else. *)
Definition subMap (m : gmap string Value) (part0 : string) : gmap string Value :=
  match m !! part0 with
  | Some (VMap sub) => sub
  | _ => ∅
  end.

(** [setNestedKey]: sets a value in a nested map using a dot-separated key
    path. The Go function updates the map in place; this one returns the
    updated map. *)
Equations? setNestedKey (m : gmap string Value) (key : string) (value : Value)
  : gmap string Value by wf (String.length key) lt :=
  setNestedKey m key value with Logic.inspect (SplitN2 key) := {
    | exist _ None _ => <[key := value]> m
    | exist _ (Some (part0, part1)) Hparts =>
        <[part0 := VMap (setNestedKey (subMap m part0) part1 value)]> m }.
Proof.
  clear setNestedKey. revert part0 Hparts.
  induction key as [|c rest IH]; intros part0; cbn [SplitN2]; [discriminate|].
  destruct (Ascii.eqb c ".").
  - intros [= <- <-]. cbn [String.length]. lia.
  - destruct (SplitN2 rest) as [[p0 p1]|]; [|discriminate].
    intros [= <- <-]. specialize (IH p0 eq_refl). cbn [String.length]. lia.
Qed.

(** [SaveConfigValue]: sets a key-value pair and writes it to the config
    file; [None] is the nil error. The file is read again from disk, the
    one key is set in what was read, and the result is written back. *)
Definition SaveConfigValue (key : string) (value : Value) (beadsDir : string) (st : State)
  : option string * State :=
  match v st with
  | None => (Some "config not initialized", st)
  | Some vp =>
      let vp := Viper_Set key value vp in
      let '(configPath, vp) :=
        if String.eqb (ConfigFileUsed vp) "" then
          (Join beadsDir "config.yaml", SetConfigFile (Join beadsDir "config.yaml") vp)
        else (ConfigFileUsed vp, vp) in
      let st := setViper vp st in
      let existing :=
        match disk st !! configPath with
        | Some (YamlDoc doc) => doc
        | _ => ∅
        end in
      let existing := setNestedKey existing key value in
      WriteFile configPath (YamlDoc existing) st
  end.

(** *** Reading a nested mapping by a path of keys *)

(** The value a path of keys leads to. *)
Fixpoint lookupPath (path : list string) (x : Value) : option Value :=
  match path with
  | [] => Some x
  | k :: rest =>
      match x with
      | VMap m => match m !! k with Some y => lookupPath rest y | None => None end
      | _ => None
      end
  end.

(** [strings.Split(key, ".")]: the keys of a dot-separated path. *)
Fixpoint keyPath (key : string) : list string :=
  match key with
  | EmptyString => [EmptyString]
  | String c rest =>
      if Ascii.eqb c "." then EmptyString :: keyPath rest
      else match keyPath rest with
           | part :: parts => String c part :: parts
           | [] => [String c EmptyString]
           end
  end.

(** A config file to run on: a nested [sync] mapping, a scalar, a list. *)
Definition sampleDoc : gmap string Value :=
  <["sync" := VMap (<["mode" := VString "git-portable"]> (<["export_on" := VString "push"]> ∅))]>
  (<["issue-prefix" := VString "bd"]>
  (<["labels" := VList [VString "a"; VString "b"]]> ∅)).

Definition sampleViper : Viper :=
  mkViper ".beads/config.yaml" ∅
    (<["conflict.strategy" := VString "ours"]>
     (<["conflict.fields" :=
          VMap (<["title" := VString "bogus"]> (<["labels" := VString " Union "]> ∅))]>
      (<["sync.mode" := VString "git-portable"]> ∅)))
    (<["conflict.strategy" := VString "newest"]> (<["json" := VBool false]> ∅)).

Definition sampleState : State :=
  mkState (Some sampleViper)
    (<["BD_ACTOR" := "alice"]> (<["BD_JSON" := ""]> ∅))
    (<[".beads/config.yaml" := YamlDoc sampleDoc]> (<[".beads/issues.jsonl" := NotYaml "{}"]> ∅))
    ∅ [].

End Config.

(** ** The changelog baked into the binary *)

Module Changelog.
Import GoStrings.

(** One entry of the changelog. *)
Record VersionChange : Type := mkVersionChange {
  Version : string;
  Date : string;
  Changes : list string;
}.

Section GetVersionsSince.

(** The table [versionChanges], newest entry first. *)
Variable versionChanges : list VersionChange.

(** The index of the first entry of a version, from the newest on. *)
Fixpoint findVersion (sinceVersion : string) (entries : list VersionChange) : option nat :=
  match entries with
  | [] => None
  | vc :: rest =>
      if String.eqb (Version vc) sinceVersion then Some 0%nat
      else S <$> findVersion sinceVersion rest
  end.

(** Modelled from the spec: [getVersionsSince], whose source file is
    missing (its tests call it). It returns every entry of the changelog
    newer than a version, oldest first; the whole table (chronological)
    when the version is empty or not found; nothing when the version is
    the latest entry. *)
Definition getVersionsSince (sinceVersion : string) : list VersionChange :=
  if String.eqb sinceVersion "" then rev versionChanges
  else
    match findVersion sinceVersion versionChanges with
    | None => rev versionChanges
    | Some startIdx => rev (take startIdx versionChanges)
    end.

End GetVersionsSince.

(** A changelog to run on. *)
Definition sampleChanges : list VersionChange :=
  [ mkVersionChange "0.23.0" "2025-11-08" ["Agent mail"];
    mkVersionChange "0.22.1" "2025-11-06" ["Fixes"];
    mkVersionChange "0.22.0" "2025-11-05" ["Worktrees"];
    mkVersionChange "0.21.0" "2025-11-01" ["Hash ids"] ].

End Changelog.

(** ** The version tracker *)

Module VersionTracking.
Import GoStrings.

(** The repository found by [FindBeadsDir] (the empty string when there is
    none), the files on disk, and the two package variables. *)
Record State : Type := mkState {
  beadsDir : string;
  files : gmap string string;
  versionUpgradeDetected : bool;
  previousVersion : string;
}.

Definition localVersionFile : string := ".local_version".

(** [readLocalVersion]: [None] when the file is missing. *)
Definition readLocalVersion (path : string) (st : State) : option string :=
  files st !! path.

Definition writeLocalVersion (path version : string) (st : State) : State :=
  mkState (beadsDir st) (<[path := version]> (files st))
    (versionUpgradeDetected st) (previousVersion st).

Definition rememberUpgrade (lastVersion : string) (st : State) : State :=
  mkState (beadsDir st) (files st) true lastVersion.

Section TrackBdVersion.

(** The version of the running binary, and the order on versions (the
    spec names the three outcomes of the comparison and not how versions
    are compared). *)
Variable Version : string.
Variable compareVersions : string -> string -> comparison.

(** Modelled from the spec: [trackBdVersion], whose source file is
    missing (its tests call it). The algorithm: locate [.beads]; read
    [.local_version] (missing: first run); compare with the binary's
    version. First run: write the current version, no upgrade. File
    version older: upgrade detected, previous version remembered, file
    overwritten. Equal: no change. File version newer (a downgrade): the
    two variables are left alone and the file is overwritten. *)
Definition trackBdVersion (st : State) : State :=
  if String.eqb (beadsDir st) "" then st
  else
    let localVersionPath := Join (beadsDir st) localVersionFile in
    match readLocalVersion localVersionPath st with
    | None => writeLocalVersion localVersionPath Version st
    | Some lastVersion =>
        match compareVersions lastVersion Version with
        | Lt => writeLocalVersion localVersionPath Version (rememberUpgrade lastVersion st)
        | Eq => st
        | Gt => writeLocalVersion localVersionPath Version st
        end
    end.

End TrackBdVersion.

(** An order on versions to run on: major, minor and patch numbers,
    compared in this order. *)
Fixpoint splitDots (s : string) : list string :=
  match s with
  | EmptyString => [EmptyString]
  | String c rest =>
      if Ascii.eqb c "." then EmptyString :: splitDots rest
      else match splitDots rest with
           | part :: parts => String c part :: parts
           | [] => [String c EmptyString]
           end
  end.

Definition versionNumbers (s : string) : Z * Z * Z :=
  let parts := (fun p => default 0 (Atoi p)) <$> splitDots s in
  (nth 0 parts 0, nth 1 parts 0, nth 2 parts 0).

Definition sampleCompare (a b : string) : comparison :=
  let '(a1, a2, a3) := versionNumbers a in
  let '(b1, b2, b3) := versionNumbers b in
  match a1 ?= b1 with
  | Eq => match a2 ?= b2 with Eq => a3 ?= b3 | c => c end
  | c => c
  end.

(** A repository whose [.local_version] holds the given version, if any,
    before the first call of the process. *)
Definition sampleState (localVersion : option string) : State :=
  mkState "/repo/.beads"
    (match localVersion with
     | Some lv => <["/repo/.beads/.local_version" := lv]> (<["/repo/.beads/metadata.json" := "{}"]> ∅)
     | None => <["/repo/.beads/beads.db" := ""]> ∅
     end)
    false "".

End VersionTracking.

(** ** The command [bd dolt] *)

Module DoltCmd.
Import GoStrings.

(** [configfile.Config]: the fields of [metadata.json] the command uses. *)
Record Config : Type := mkConfig {
  Backend : string;
  DoltMode : string;
  DoltDatabase : string;
  DoltServerHost : string;
  DoltServerPort : Z;
  DoltServerUser : string;
}.

Definition BackendDolt : string := "dolt".
Definition DoltModeEmbedded : string := "embedded".
Definition DoltModeServer : string := "server".

(** [time.Second], in nanoseconds. *)
Definition Second : Z := 1000000000.

(** A [metadata.json] on disk: one that decodes, or one that does not. *)
Inductive MetadataFile : Type :=
| ValidMetadata (cfg : Config)
| CorruptMetadata (err : string).

(** A value of the JSON output. *)
Inductive JSONValue : Type :=
| JString (s : string)
| JBool (b : bool)
| JInt (i : Z).

(** The world the command runs in: the environment, the [.beads]
    directory that [beads.FindBeadsDir] finds (empty: none), the
    [metadata.json] files and the text files on disk by path, the paths
    that cannot be opened for writing, the two output streams, the clock
    (as [time.RFC3339] text), the [--json] flag, the addresses a TCP dial
    reaches within its timeout, and the dials and closes made so far. *)
Record World : Type := mkWorld {
  environ : gmap string string;
  beadsDir : string;
  metadataJSON : gmap string MetadataFile;
  textFiles : gmap string string;
  unwritable : gset string;
  stdout : list string;
  stderr : list string;
  now : string;
  jsonOutput : bool;
  listening : gset string;
  dialed : list (string * string * Z);
  closed : list string;
}.

Definition withMetadataJSON (m : gmap string MetadataFile) (w : World) : World :=
  mkWorld (environ w) (beadsDir w) m (textFiles w) (unwritable w) (stdout w) (stderr w)
    (now w) (jsonOutput w) (listening w) (dialed w) (closed w).

Definition withTextFiles (t : gmap string string) (w : World) : World :=
  mkWorld (environ w) (beadsDir w) (metadataJSON w) t (unwritable w) (stdout w) (stderr w)
    (now w) (jsonOutput w) (listening w) (dialed w) (closed w).

Definition withStdout (out : list string) (w : World) : World :=
  mkWorld (environ w) (beadsDir w) (metadataJSON w) (textFiles w) (unwritable w) out (stderr w)
    (now w) (jsonOutput w) (listening w) (dialed w) (closed w).

Definition withStderr (err : list string) (w : World) : World :=
  mkWorld (environ w) (beadsDir w) (metadataJSON w) (textFiles w) (unwritable w) (stdout w) err
    (now w) (jsonOutput w) (listening w) (dialed w) (closed w).

Definition withNet (d : list (string * string * Z)) (c : list string) (w : World) : World :=
  mkWorld (environ w) (beadsDir w) (metadataJSON w) (textFiles w) (unwritable w) (stdout w)
    (stderr w) (now w) (jsonOutput w) (listening w) d c.

(** *** Commands: state passing, with [os.Exit] *)

Inductive Outcome (A : Type) : Type :=
| Returned (a : A)
| Exited (code : Z).
Arguments Returned {A} a.
Arguments Exited {A} code.

Definition Cmd (A : Type) : Type := World -> Outcome A * World.

Definition ret {A : Type} (a : A) : Cmd A := fun w => (Returned a, w).

Definition bind {A B : Type} (c : Cmd A) (k : A -> Cmd B) : Cmd B :=
  fun w =>
    match c w with
    | (Returned a, w') => k a w'
    | (Exited code, w') => (Exited code, w')
    end.

(** [os.Exit(code)]: nothing after it runs. *)
Definition Exit {A : Type} (code : Z) : Cmd A := fun w => (Exited code, w).

Notation "'let*' x ':=' c 'in' k" := (bind c (fun x => k))
  (at level 10, x pattern, c at level 100, k at level 200, only parsing).
Notation "c ';;;' k" := (bind c (fun _ => k))
  (at level 100, k at level 200, right associativity, only parsing).

(** [fmt.Fprintf(os.Stderr, ...)] and [fmt.Printf]/[fmt.Println]. *)
Definition eprint (s : string) : Cmd unit := fun w => (Returned tt, withStderr (stderr w ++ [s]) w).
Definition print (s : string) : Cmd unit := fun w => (Returned tt, withStdout (stdout w ++ [s]) w).

Definition getWorld : Cmd World := fun w => (Returned w, w).

(** [net.DialTimeout]: the connection, or [None] for an error. *)
Definition DialTimeout (network address : string) (timeout : Z) : Cmd (option string) :=
  fun w =>
    let w' := withNet (dialed w ++ [(network, address, timeout)]) (closed w) w in
    if String.eqb network "tcp" && bool_decide (address ∈ listening w)
    then (Returned (Some address), w')
    else (Returned None, w').

Definition Close (conn : string) : Cmd unit :=
  fun w => (Returned tt, withNet (dialed w) (closed w ++ [conn]) w).

(** The fields of a JSON object, one after the other. *)
Fixpoint Join_fields (fields : list string) : string :=
  match fields with
  | [] => ""
  | [x] => x
  | x :: rest => x +:+ " " +:+ Join_fields rest
  end.

(** *** What the command calls in other packages *)

(** The functions of the packages [configfile], [config] and [ui], and the
    helper [outputJSON] of the command, that [bd dolt] calls: an interface
    the command is written against. *)
Class Externals : Type := {
  DefaultConfig : Config;
  GetBackend : Config -> string;
  GetDoltServerHost : Config -> gmap string string -> string;
  GetDoltServerPort : Config -> gmap string string -> Z;
  SetYamlConfig : string -> string -> Cmd (option string);
  RenderWarn : string -> string;
  outputJSON : list (string * JSONValue) -> Cmd unit;
}.

(** Modelled from the spec: [configfile.Load] and [Config.Save], of the
    package [configfile], which is missing. [metadata.json] in the [.beads]
    directory holds the backend parameters; loading a directory without
    the file gives no config and no error, a file that does not decode
    gives an error; saving writes the file, or fails with an error. *)
Definition Load (beadsDir : string) : Cmd (option Config + string) :=
  fun w =>
    match metadataJSON w !! Join beadsDir "metadata.json" with
    | None => (Returned (inl None), w)
    | Some (ValidMetadata cfg) => (Returned (inl (Some cfg)), w)
    | Some (CorruptMetadata err) => (Returned (inr err), w)
    end.

Definition Save (cfg : Config) (beadsDir : string) : Cmd (option string) :=
  fun w =>
    let path := Join beadsDir "metadata.json" in
    if bool_decide (path ∈ unwritable w) then
      (Returned (Some ("open " +:+ path +:+ ": permission denied")), w)
    else (Returned None, withMetadataJSON (<[path := ValidMetadata cfg]> (metadataJSON w)) w).

(** [beads.FindBeadsDir()] *)
Definition FindBeadsDir : Cmd string := fun w => (Returned (beadsDir w), w).

(** [logDoltConfigChange] appends an audit entry to
    [.beads/dolt-config.log]; best effort. *)
Definition logDoltConfigChange (beadsDir key value : string) : Cmd unit :=
  fun w =>
    let logPath := Join beadsDir "dolt-config.log" in
    let actor := Getenv (environ w) "BD_ACTOR" in
    let actor := if String.eqb actor "" then "unknown" else actor in
    let entry :=
      now w +:+ " actor=" +:+ actor +:+ " key=" +:+ key +:+ " value=" +:+ value +:+
      " beads_dir=" +:+ beadsDir +:+ LF in
    if bool_decide (logPath ∈ unwritable w) then (Returned tt, w)
    else
      (Returned tt,
       withTextFiles (<[logPath := default "" (textFiles w !! logPath) +:+ entry]> (textFiles w)) w).

Section Commands.
Context `{Externals}.

(** The [switch] of [setDoltConfig]: the updated config and the key of
    [config.yaml], or an error message and exit. *)
Definition applySetting (key value : string) (cfg : Config) : Cmd (Config * string) :=
  if String.eqb key "mode" then
    if negb (String.eqb value DoltModeEmbedded) && negb (String.eqb value DoltModeServer) then
      eprint ("Error: mode must be '" +:+ DoltModeEmbedded +:+ "' or '" +:+ DoltModeServer
              +:+ "'" +:+ LF) ;;;
      Exit 1
    else
      ret (mkConfig (Backend cfg) value (DoltDatabase cfg) (DoltServerHost cfg)
             (DoltServerPort cfg) (DoltServerUser cfg), "dolt.mode")
  else if String.eqb key "database" then
    if String.eqb value "" then
      eprint ("Error: database name cannot be empty" +:+ LF) ;;; Exit 1
    else
      ret (mkConfig (Backend cfg) (DoltMode cfg) value (DoltServerHost cfg)
             (DoltServerPort cfg) (DoltServerUser cfg), "dolt.database")
  else if String.eqb key "host" then
    if String.eqb value "" then
      eprint ("Error: host cannot be empty" +:+ LF) ;;; Exit 1
    else
      ret (mkConfig (Backend cfg) (DoltMode cfg) (DoltDatabase cfg) value
             (DoltServerPort cfg) (DoltServerUser cfg), "dolt.host")
  else if String.eqb key "port" then
    match Atoi value with
    | Some port =>
        if (port <=? 0) || (65535 <? port) then
          eprint ("Error: port must be a valid port number (1-65535)" +:+ LF) ;;; Exit 1
        else
          ret (mkConfig (Backend cfg) (DoltMode cfg) (DoltDatabase cfg) (DoltServerHost cfg)
                 port (DoltServerUser cfg), "dolt.port")
    | None =>
        eprint ("Error: port must be a valid port number (1-65535)" +:+ LF) ;;; Exit 1
    end
  else if String.eqb key "user" then
    if String.eqb value "" then
      eprint ("Error: user cannot be empty" +:+ LF) ;;; Exit 1
    else
      ret (mkConfig (Backend cfg) (DoltMode cfg) (DoltDatabase cfg) (DoltServerHost cfg)
             (DoltServerPort cfg) value, "dolt.user")
  else
    eprint ("Error: unknown key '" +:+ key +:+ "'" +:+ LF) ;;;
    eprint ("Valid keys: mode, database, host, port, user" +:+ LF) ;;;
    Exit 1.

(** [setDoltConfig]: validate, log the change, save [metadata.json],
    report, and update [config.yaml] if asked to. *)
Definition setDoltConfig (key value : string) (updateConfig : bool) : Cmd unit :=
  let* beadsDir := FindBeadsDir in
  (if String.eqb beadsDir "" then
     eprint ("Error: not in a beads repository (no .beads directory found)" +:+ LF) ;;;
     Exit 1
   else ret tt) ;;;
  let* loaded := Load beadsDir in
  let* cfg :=
    match loaded with
    | inr err => eprint ("Error loading config: " +:+ err +:+ LF) ;;; Exit 1
    | inl None => ret DefaultConfig
    | inl (Some cfg) => ret cfg
    end in
  (if negb (String.eqb (GetBackend cfg) BackendDolt) then
     eprint ("Error: not using Dolt backend" +:+ LF) ;;; Exit 1
   else ret tt) ;;;
  let* updated := applySetting key value cfg in
  let cfg := fst updated in
  let yamlKey := snd updated in
  logDoltConfigChange beadsDir key value ;;;
  let* saveErr := Save cfg beadsDir in
  match saveErr with
  | Some err => eprint ("Error saving config: " +:+ err +:+ LF) ;;; Exit 1
  | None =>
      let* w := getWorld in
      if jsonOutput w then
        outputJSON
          ([("key", JString key); ("value", JString value); ("location", JString "metadata.json")]
           ++ (if updateConfig then [("config_yaml_updated", JBool true)] else []))
      else
        print ("Set " +:+ key +:+ " = " +:+ value +:+ " (in metadata.json)" +:+ LF) ;;;
        if updateConfig && negb (String.eqb yamlKey "") then
          let* yamlErr := SetYamlConfig yamlKey value in
          match yamlErr with
          | Some err =>
              print (RenderWarn ("Warning: failed to update config.yaml: " +:+ err) +:+ LF)
          | None =>
              print ("Set " +:+ yamlKey +:+ " = " +:+ value +:+ " (in config.yaml)" +:+ LF)
          end
        else ret tt
  end.

(** [testServerConnection]: a TCP dial of the configured host and port,
    with a timeout of three seconds. *)
Definition testServerConnection (cfg : Config) : Cmd bool :=
  let* w := getWorld in
  let host := GetDoltServerHost cfg (environ w) in
  let port := GetDoltServerPort cfg (environ w) in
  let addr := JoinHostPort host (Itoa port) in
  let* conn := DialTimeout "tcp" addr (3 * Second) in
  match conn with
  | None => ret false
  | Some c => Close c ;;; ret true
  end.

End Commands.

(** A setting that [setDoltConfig] refuses: a port that is not an integer
    between 1 and 65535, an empty database, host or user, an unknown key,
    a mode other than embedded or server. *)
Definition refusedSetting (key value : string) : Prop :=
  (key = "port" /\ forall port, Atoi value = Some port -> ~ (1 <= port <= 65535))
  \/ ((key = "database" \/ key = "host" \/ key = "user") /\ value = "")
  \/ (key <> "mode" /\ key <> "database" /\ key <> "host" /\ key <> "port" /\ key <> "user")
  \/ (key = "mode" /\ value <> "embedded" /\ value <> "server").

(** Modelled from the spec: getters of [configfile.Config] to run on. An
    environment variable ([BEADS_DOLT_SERVER_HOST],
    [BEADS_DOLT_SERVER_PORT]) overrides the field of [metadata.json], and
    an unset field takes its default (host 127.0.0.1, port 3307); the
    backend of a config that names none is not dolt. The other functions
    do nothing that the properties below depend on. *)
Definition sampleExternals : Externals := {|
  DefaultConfig := mkConfig "" "" "" "" 0 "";
  GetBackend := fun cfg => if String.eqb (Backend cfg) "" then "sqlite" else Backend cfg;
  GetDoltServerHost := fun cfg environ =>
    let h := Getenv environ "BEADS_DOLT_SERVER_HOST" in
    if negb (String.eqb h "") then h
    else if negb (String.eqb (DoltServerHost cfg) "") then DoltServerHost cfg
    else "127.0.0.1";
  GetDoltServerPort := fun cfg environ =>
    match Atoi (Getenv environ "BEADS_DOLT_SERVER_PORT") with
    | Some p => p
    | None => if 0 <? DoltServerPort cfg then DoltServerPort cfg else 3307
    end;
  SetYamlConfig := fun _ _ => ret None;
  RenderWarn := fun s => s;
  outputJSON := fun fields =>
    print (Join_fields ((fun kv => fst kv +:+ "=" +:+
                           match snd kv with
                           | JString s => s
                           | JBool b => if b then "true" else "false"
                           | JInt i => Itoa i
                           end) <$> fields));
|}.

(** A repository on the dolt backend in server mode, with a server
    listening on the loopback address. *)
Definition sampleConfig : Config :=
  mkConfig "dolt" "server" "beads" "127.0.0.1" 3307 "root".

Definition sampleWorld : World :=
  mkWorld (<["BD_ACTOR" := "alice"]> ∅) "/repo/.beads"
    (<["/repo/.beads/metadata.json" := ValidMetadata sampleConfig]> ∅)
    (<["/repo/.beads/dolt-config.log" := "2025-11-08T10:00:00Z actor=bob key=mode value=server beads_dir=/repo/.beads" +:+ LF]> ∅)
    ∅ [] [] "2025-11-09T12:00:00Z" false
    {["127.0.0.1:3307"]} [] [].

End DoltCmd.

(** * Properties *)

Section GoStringsExamples.
Import GoStrings.

Example Contains_ex : Contains "unable to open: database is locked (5)" "database is locked" = true.
Proof. reflexivity. Qed.

Example Atoi_ex : Atoi "3307" = Some 3307 /\ Atoi "+80" = Some 80 /\ Atoi "-1" = Some (-1)
                  /\ Atoi "" = None /\ Atoi "80 " = None /\ Atoi "1e3" = None
                  /\ Atoi "9223372036854775808" = None.
Proof. repeat split; reflexivity. Qed.

Example Itoa_ex : Itoa 3307 = "3307" /\ Itoa 0 = "0" /\ Itoa (-12) = "-12".
Proof. repeat split; reflexivity. Qed.

Example TrimSpace_ex : TrimSpace "  Union " = "Union" /\ ToLower "Union" = "union".
Proof. split; reflexivity. Qed.

Example JoinHostPort_ex :
  JoinHostPort "192.0.2.1" (Itoa 3307) = "192.0.2.1:3307"
  /\ JoinHostPort "::1" (Itoa 59998) = "[::1]:59998".
Proof. split; reflexivity. Qed.

End GoStringsExamples.

(** ** [strings.Contains] finds exactly the infixes *)

Section ContainsProperties.
Import GoStrings.

Lemma append_nil_l (b : string) : "" +:+ b = b.
Proof. reflexivity. Qed.

Lemma append_cons (x : ascii) (a b : string) : String x a +:+ b = String x (a +:+ b).
Proof. reflexivity. Qed.

Lemma append_assoc (a b c : string) : (a +:+ b) +:+ c = a +:+ (b +:+ c).
Proof.
  induction a as [|x a IH]; [reflexivity|].
  now rewrite !append_cons, IH.
Qed.

Lemma prefix_true_iff (p s : string) :
  String.prefix p s = true <-> exists r, s = p +:+ r.
Proof.
  revert s. induction p as [|x p IH]; intros [|y s]; simpl.
  - split; [intros _; now exists "" | reflexivity].
  - split; [intros _; now exists (String y s) | reflexivity].
  - split; [discriminate | intros [r Hr]; discriminate].
  - destruct (ascii_dec x y) as [->|Hne].
    + rewrite IH. split; intros [r Hr]; exists r.
      * now rewrite append_cons, Hr.
      * rewrite append_cons in Hr. now inversion Hr.
    + split; [discriminate | intros [r Hr]].
      rewrite append_cons in Hr. inversion Hr; congruence.
Qed.

Lemma Contains_unfold (s sub : string) :
  Contains s sub =
  if String.prefix sub s then true
  else match s with EmptyString => false | String _ s' => Contains s' sub end.
Proof. destruct s; reflexivity. Qed.

Lemma Contains_true_iff (s sub : string) :
  Contains s sub = true <-> exists a b, s = a +:+ sub +:+ b.
Proof.
  induction s as [|x s IH]; rewrite Contains_unfold.
  - destruct (String.prefix sub "") eqn:Hp.
    + apply prefix_true_iff in Hp as [r Hr].
      split; [intros _; now exists "", r | reflexivity].
    + split; [discriminate | intros (a & b & Hab)].
      destruct a; [|discriminate]. rewrite append_nil_l in Hab.
      assert (String.prefix sub "" = true) by (apply prefix_true_iff; eauto).
      congruence.
  - destruct (String.prefix sub (String x s)) eqn:Hp.
    + apply prefix_true_iff in Hp as [r Hr].
      split; [intros _; now exists "", r | reflexivity].
    + rewrite IH. split.
      * intros (a & b & ->). now exists (String x a), b.
      * intros (a & b & Hab). destruct a as [|y a].
        -- rewrite append_nil_l in Hab.
           assert (String.prefix sub (String x s) = true) by (apply prefix_true_iff; eauto).
           congruence.
        -- rewrite append_cons in Hab. inversion Hab; subst. now exists a, b.
Qed.

Lemma Contains_infix (a sub b : string) : Contains (a +:+ sub +:+ b) sub = true.
Proof. apply Contains_true_iff. now exists a, b. Qed.

(** A message that holds a longer pattern holds each part of it. *)
Lemma Contains_part (s p sub q : string) :
  Contains s (p +:+ sub +:+ q) = true -> Contains s sub = true.
Proof.
  rewrite !Contains_true_iff. intros (a & b & ->).
  exists (a +:+ p), (q +:+ b). now rewrite !append_assoc.
Qed.

End ContainsProperties.

(** ** Package doctor *)

Section DoctorProperties.
Import GoStrings Doctor.

Example classify_locked_ex :
  fst (classifyDatabaseError "sqlite3: database is locked" 0 false) = "Database is locked".
Proof. reflexivity. Qed.

Example classify_corrupt_ex :
  classifyDatabaseError "file is not a database" 12 true =
  ("File is not a valid SQLite database",
   "Database file is corrupted beyond repair." +:+ LF +:+ LF +:+
   "Recovery steps:" +:+ LF +:+
   "1. Backup corrupt database: mv .beads/beads.db .beads/beads.db.broken" +:+ LF +:+
   "2. Rebuild from JSONL (12 issues): bd doctor --fix --force --source=jsonl" +:+ LF +:+
   "3. Verify: bd stats").
Proof. reflexivity. Qed.

Example classify_generic_ex :
  classifyDatabaseError "disk I/O error" 0 false =
  ("Failed to open database", "Run 'bd doctor --fix --force' to attempt recovery").
Proof. reflexivity. Qed.

(** The second disjunct of the corrupted-file case never decides: a message
    with [file is not a database] has [not a database] in it. *)
Lemma file_is_not_a_database_redundant (errMsg : string) :
  Contains errMsg "not a database" = false ->
  Contains errMsg "file is not a database" = false.
Proof.
  intros H. destruct (Contains errMsg "file is not a database") eqn:E; [|reflexivity].
  apply (Contains_part errMsg "file is " "not a database" "") in E. congruence.
Qed.

Example CheckDatabaseVersion_fresh_clone_ex :
  CheckDatabaseVersion (sampleEnv "sqlite" [".beads/issues.jsonl"] false) "." "0.49.0" =
  mkCheck "Database" "warning" "Fresh clone detected (no database)"
    "Found 2 issue(s) in JSONL that need to be imported"
    "Run 'bd init' to hydrate the database (detected prefix: bd)".
Proof. vm_compute. reflexivity. Qed.

Example CheckDatabaseVersion_jsonl_only_ex :
  CheckDatabaseVersion (sampleEnv "sqlite" [".beads/beads.jsonl"] true) "." "0.49.0" =
  mkCheck "Database" "ok" "JSONL-only mode" "Using issues.jsonl (no SQLite database)" "".
Proof. vm_compute. reflexivity. Qed.

Example CheckDatabaseVersion_no_database_ex :
  CheckDatabaseVersion (sampleEnv "sqlite" [] true) "." "0.49.0" =
  mkCheck "Database" "error" "No beads.db found" "" "Run 'bd init' to create database".
Proof. vm_compute. reflexivity. Qed.

Example CheckDatabaseVersion_dolt_fresh_clone_ex :
  CheckDatabaseVersion (sampleEnv "dolt" [".beads/beads.jsonl"] false) "." "0.49.0" =
  mkCheck "Database" "warning" "Fresh clone detected (no dolt database)" "Storage: Dolt"
    "Run 'bd init' to create and hydrate the dolt database".
Proof. vm_compute. reflexivity. Qed.

Example CheckDatabaseVersion_dolt_unreadable_ex :
  CheckDatabaseVersion (sampleEnv "dolt" [".beads/dolt"] false) "." "0.49.0" =
  mkCheck "Database" "error" "Unable to open database"
    ("Storage: Dolt" +:+ LF +:+ LF +:+ "Error: database not found")
    "Run 'bd doctor --fix' to recover from JSONL backup, or manually: rm -rf .beads/dolt && bd init".
Proof. vm_compute. reflexivity. Qed.

(** Rewrites a concatenation into its right-nested form and compares. *)
Ltac string_assoc := rewrite ?append_assoc; reflexivity.

(** The recovery steps of the corrupted-file case mention the count. *)
Lemma corrupt_steps_mention_count (errMsg : string) (jsonlCount : Z) :
  Contains errMsg "database is locked" = false ->
  Contains errMsg "not a database" = true ->
  Contains (snd (classifyDatabaseError errMsg jsonlCount true))
           ("Rebuild from JSONL (" +:+ Itoa jsonlCount +:+ " issues)") = true.
Proof.
  intros Hl Hn. unfold classifyDatabaseError. rewrite Hl, Hn. cbn [orb snd].
  apply Contains_true_iff.
  eexists ("Database file is corrupted beyond repair." +:+ LF +:+ LF +:+
           "Recovery steps:" +:+ LF +:+
           "1. Backup corrupt database: mv .beads/beads.db .beads/beads.db.broken" +:+ LF +:+
           "2. "),
          (": bd doctor --fix --force --source=jsonl" +:+ LF +:+ "3. Verify: bd stats").
  string_assoc.
Qed.

(** The recovery steps of the migration case mention the count and the
    repair in place. *)
Lemma migration_steps_mention_count (errMsg : string) (jsonlCount : Z) :
  Contains errMsg "database is locked" = false ->
  Contains errMsg "not a database" = false ->
  Contains errMsg "migration" || Contains errMsg "validation failed" = true ->
  let steps := snd (classifyDatabaseError errMsg jsonlCount true) in
  Contains steps ("Rebuild from JSONL (" +:+ Itoa jsonlCount +:+ " issues)") = true
  /\ Contains steps "bd doctor --fix --force (attempts to repair in-place)" = true.
Proof.
  intros Hl Hn Hm. unfold classifyDatabaseError.
  rewrite Hl, Hn, (file_is_not_a_database_redundant _ Hn), Hm. cbn [orb snd].
  split; apply Contains_true_iff.
  - eexists ("Database has validation errors (possibly orphaned dependencies)." +:+ LF +:+ LF +:+
             "Recovery steps:" +:+ LF +:+
             "1. Backup database: mv .beads/beads.db .beads/beads.db.broken" +:+ LF +:+
             "2. "),
            (": bd doctor --fix --force --source=jsonl" +:+ LF +:+
             "3. Verify: bd stats" +:+ LF +:+ LF +:+
             "Alternative: bd doctor --fix --force (attempts to repair in-place)").
    string_assoc.
  - eexists ("Database has validation errors (possibly orphaned dependencies)." +:+ LF +:+ LF +:+
             "Recovery steps:" +:+ LF +:+
             "1. Backup database: mv .beads/beads.db .beads/beads.db.broken" +:+ LF +:+
             "2. Rebuild from JSONL (" +:+ Itoa jsonlCount +:+
             " issues): bd doctor --fix --force --source=jsonl" +:+ LF +:+
             "3. Verify: bd stats" +:+ LF +:+ LF +:+ "Alternative: "), "".
    string_assoc.
Qed.

(** C3, as the code has it: [classifyDatabaseError] is a total function of
    the message, the JSONL count and the availability flag, and the FIRST
    pattern found in the message decides. A message with [database is
    locked] is classified as locked, with the stale-lock removal steps. A
    message without it but with [not a database] is classified as a file
    that is not a valid database; with JSONL available the steps mention
    the rebuild from JSONL with the given count. A message with neither
    but with [migration] or [validation failed] is classified as a failed
    migration or validation; the steps offer the rebuild from JSONL with
    the count when JSONL is available, and the repair in place otherwise.
    Every other message gets the generic classification, which offers the
    JSONL rebuild or the forced repair depending on availability. *)
Theorem classifyDatabaseError_first_match
  (errMsg : string) (jsonlCount : Z) (jsonlAvailable : bool) :
  let result := classifyDatabaseError errMsg jsonlCount jsonlAvailable in
  let rebuild := "Rebuild from JSONL (" +:+ Itoa jsonlCount +:+ " issues)" in
  (Contains errMsg "database is locked" = true ->
     fst result = "Database is locked"
     /\ Contains (snd result) "removes stale lock files" = true
     /\ Contains (snd result) "rm .beads/dolt-access.lock" = true)
  /\ (Contains errMsg "database is locked" = false ->
      Contains errMsg "not a database" = true ->
      fst result = "File is not a valid SQLite database"
      /\ (jsonlAvailable = true -> Contains (snd result) rebuild = true))
  /\ (Contains errMsg "database is locked" = false ->
      Contains errMsg "not a database" = false ->
      Contains errMsg "migration" = true \/ Contains errMsg "validation failed" = true ->
      fst result = "Database migration or validation failed"
      /\ (jsonlAvailable = true ->
          Contains (snd result) rebuild = true
          /\ Contains (snd result) "bd doctor --fix --force (attempts to repair in-place)" = true)
      /\ (jsonlAvailable = false ->
          snd result = "Database validation failed and no JSONL backup available." +:+ LF +:+
                       "Try: bd doctor --fix --force"))
  /\ (Contains errMsg "database is locked" = false ->
      Contains errMsg "not a database" = false ->
      Contains errMsg "migration" = false ->
      Contains errMsg "validation failed" = false ->
      result =
        ("Failed to open database",
         if jsonlAvailable
         then "Run 'bd doctor --fix --source=jsonl' to rebuild from JSONL (" +:+
              Itoa jsonlCount +:+ " issues)"
         else "Run 'bd doctor --fix --force' to attempt recovery")).
Proof.
  cbv zeta. repeat apply conj.
  - intros Hl. unfold classifyDatabaseError. rewrite Hl. cbn [fst snd].
    repeat split; reflexivity.
  - intros Hl Hn. split.
    + unfold classifyDatabaseError. now rewrite Hl, Hn.
    + intros ->. now apply corrupt_steps_mention_count.
  - intros Hl Hn Hm.
    assert (Hm' : Contains errMsg "migration" || Contains errMsg "validation failed" = true)
      by (apply orb_true_iff; exact Hm).
    repeat apply conj.
    + unfold classifyDatabaseError.
      now rewrite Hl, Hn, (file_is_not_a_database_redundant _ Hn), Hm'.
    + intros ->. now apply migration_steps_mention_count.
    + intros ->. unfold classifyDatabaseError.
      now rewrite Hl, Hn, (file_is_not_a_database_redundant _ Hn), Hm'.
  - intros Hl Hn Hm Hv. unfold classifyDatabaseError.
    now rewrite Hl, Hn, (file_is_not_a_database_redundant _ Hn), Hm, Hv.
Qed.

(** The corrupted-file case at a zero-byte database with twelve issues in
    the JSONL file. *)
Lemma classifyDatabaseError_first_match_witness :
  fst (classifyDatabaseError "file is not a database" 12 true)
  = "File is not a valid SQLite database"
  /\ Contains (snd (classifyDatabaseError "file is not a database" 12 true))
              "Rebuild from JSONL (12 issues)" = true.
Proof.
  destruct (classifyDatabaseError_first_match "file is not a database" 12 true)
    as (_ & Hcorrupt & _).
  destruct Hcorrupt as [Htype Hsteps]; [reflexivity | reflexivity |].
  split; [exact Htype | exact (Hsteps eq_refl)].
Defined.

(** C3 as stated fails where two patterns meet: a migration that fails on
    a locked database has [migration] in its message and is classified as
    locked, and so is a message with [not a database] after the lock. *)
Lemma classifyDatabaseError_overlap_counterexample :
  (Contains "migration failed: database is locked" "migration" = true
   /\ fst (classifyDatabaseError "migration failed: database is locked" 3 true)
      = "Database is locked"
   /\ fst (classifyDatabaseError "migration failed: database is locked" 3 true)
      <> "Database migration or validation failed")
  /\ (Contains "database is locked; file is not a database" "not a database" = true
      /\ fst (classifyDatabaseError "database is locked; file is not a database" 3 true)
         = "Database is locked"
      /\ fst (classifyDatabaseError "database is locked; file is not a database" 3 true)
         <> "File is not a valid SQLite database").
Proof. repeat split; try reflexivity; discriminate. Qed.

(** Whatever prefix is detected, the fresh-clone hint says to hydrate. *)
Lemma fresh_clone_fix_hydrates (prefix : string) :
  Contains (if negb (String.eqb prefix "")
            then "Run 'bd init' to hydrate the database (detected prefix: " +:+ prefix +:+ ")"
            else "Run 'bd init' to hydrate the database from JSONL") "hydrate" = true.
Proof.
  destruct (negb (String.eqb prefix "")); [|reflexivity].
  apply Contains_true_iff.
  eexists "Run 'bd init' to ", (" the database (detected prefix: " +:+ prefix +:+ ")").
  string_assoc.
Qed.

(** A joined path is never the empty string. *)
Lemma Join_nonempty (dir name : string) : String.eqb (Join dir name) "" = false.
Proof. destruct dir; reflexivity. Qed.

(** The SQLite branch when the database file is missing. *)
Lemma CheckDatabaseVersion_sqlite_absent
  (env : Env) (path cliVersion backend beadsDir : string) :
  getBackendAndBeadsDir env path = (backend, beadsDir) ->
  backend <> BackendDolt ->
  IsNotExist (Stat env (sqliteDbPath env beadsDir)) = true ->
  let jsonlPresent := statOk (Stat env (Join beadsDir "issues.jsonl"))
                      || statOk (Stat env (Join beadsDir "beads.jsonl")) in
  let check := CheckDatabaseVersion env path cliVersion in
  (jsonlPresent = true -> isNoDbModeConfigured env beadsDir = false ->
   Status check = StatusWarning
   /\ Message check = "Fresh clone detected (no database)"
   /\ Contains (Fix check) "hydrate" = true)
  /\ (jsonlPresent = true -> isNoDbModeConfigured env beadsDir = true ->
      Status check = StatusOK /\ Message check = "JSONL-only mode")
  /\ (jsonlPresent = false ->
      Status check = StatusError /\ Message check = "No beads.db found").
Proof.
  intros Hb Hne Habsent. cbv zeta. unfold CheckDatabaseVersion. rewrite Hb.
  apply String.eqb_neq in Hne. rewrite Hne, Habsent.
  destruct (statOk (Stat env (Join beadsDir "issues.jsonl"))) eqn:Hi;
    [|destruct (statOk (Stat env (Join beadsDir "beads.jsonl"))) eqn:Hl];
    cbn [orb]; (repeat apply conj); intros; try discriminate.
  all: rewrite ?Join_nonempty; cbn [negb String.eqb].
  all: try match goal with H : isNoDbModeConfigured _ _ = _ |- _ => rewrite H end.
  all: repeat split; cbn [Fix]; auto using fresh_clone_fix_hydrates.
Qed.

(** The dolt branch when the dolt directory is missing: the no-db setting
    is not read. *)
Lemma CheckDatabaseVersion_dolt_absent
  (env : Env) (path cliVersion beadsDir : string) :
  getBackendAndBeadsDir env path = (BackendDolt, beadsDir) ->
  IsNotExist (Stat env (Join beadsDir "dolt")) = true ->
  let jsonlPresent := statOk (Stat env (Join beadsDir "issues.jsonl"))
                      || statOk (Stat env (Join beadsDir "beads.jsonl")) in
  let check := CheckDatabaseVersion env path cliVersion in
  (jsonlPresent = true ->
   Status check = StatusWarning
   /\ Message check = "Fresh clone detected (no dolt database)"
   /\ Contains (Fix check) "hydrate" = true)
  /\ (jsonlPresent = false ->
      Status check = StatusError /\ Message check = "No dolt database found").
Proof.
  intros Hb Habsent. cbv zeta. unfold CheckDatabaseVersion. rewrite Hb.
  rewrite String.eqb_refl, Habsent.
  split; intros ->; repeat split; reflexivity.
Qed.

(** C5, as the code has it: when the database is missing,
    [CheckDatabaseVersion] tells these states apart. On the SQLite backend
    (database file missing): a JSONL file present and no-db mode not
    configured gives a warning that names a fresh clone, with a hint to
    hydrate; a JSONL file present and no-db mode configured gives ok
    (JSONL-only mode); no JSONL file gives an error saying that no database
    was found. On the dolt backend (dolt directory missing) the no-db
    setting is not consulted: a JSONL file present gives the fresh-clone
    warning with the hint to hydrate, no JSONL file gives the error. *)
Theorem CheckDatabaseVersion_database_absent
  (env : Env) (path cliVersion backend beadsDir : string) :
  getBackendAndBeadsDir env path = (backend, beadsDir) ->
  let jsonlPresent := statOk (Stat env (Join beadsDir "issues.jsonl"))
                      || statOk (Stat env (Join beadsDir "beads.jsonl")) in
  let noDb := isNoDbModeConfigured env beadsDir in
  let check := CheckDatabaseVersion env path cliVersion in
  (backend <> BackendDolt ->
   IsNotExist (Stat env (sqliteDbPath env beadsDir)) = true ->
   (jsonlPresent = true -> noDb = false ->
    Status check = StatusWarning
    /\ Message check = "Fresh clone detected (no database)"
    /\ Contains (Fix check) "hydrate" = true)
   /\ (jsonlPresent = true -> noDb = true ->
       Status check = StatusOK /\ Message check = "JSONL-only mode")
   /\ (jsonlPresent = false ->
       Status check = StatusError /\ Message check = "No beads.db found"))
  /\ (backend = BackendDolt ->
      IsNotExist (Stat env (Join beadsDir "dolt")) = true ->
      (jsonlPresent = true ->
       Status check = StatusWarning
       /\ Message check = "Fresh clone detected (no dolt database)"
       /\ Contains (Fix check) "hydrate" = true)
      /\ (jsonlPresent = false ->
          Status check = StatusError /\ Message check = "No dolt database found")).
Proof.
  intros Hb. cbv zeta. split.
  - intros Hne Habsent.
    exact (CheckDatabaseVersion_sqlite_absent env path cliVersion backend beadsDir
             Hb Hne Habsent).
  - intros -> Habsent.
    exact (CheckDatabaseVersion_dolt_absent env path cliVersion beadsDir Hb Habsent).
Qed.

(** A SQLite repository with [issues.jsonl], no [beads.db], and [no-db]
    set: JSONL-only mode. *)
Lemma CheckDatabaseVersion_database_absent_witness :
  Status (CheckDatabaseVersion (sampleEnv "sqlite" [".beads/issues.jsonl"] true) "." "0.49.0")
  = StatusOK
  /\ Message (CheckDatabaseVersion (sampleEnv "sqlite" [".beads/issues.jsonl"] true) "." "0.49.0")
     = "JSONL-only mode".
Proof.
  destruct (CheckDatabaseVersion_database_absent
              (sampleEnv "sqlite" [".beads/issues.jsonl"] true) "." "0.49.0"
              "sqlite" ".beads" eq_refl) as [Hsqlite _].
  destruct Hsqlite as (_ & Hjsonl & _); [discriminate | reflexivity |].
  apply Hjsonl; reflexivity.
Defined.

(** C5 as stated fails on the dolt backend: with [no-db: true] in
    [config.yaml], a JSONL file present and no database at all, the check
    returns the fresh-clone warning, not ok. *)
Lemma CheckDatabaseVersion_dolt_no_db_counterexample :
  let env := sampleEnv "dolt" [".beads/issues.jsonl"] true in
  isNoDbModeConfigured env ".beads" = true
  /\ IsNotExist (Stat env ".beads/dolt") = true
  /\ IsNotExist (Stat env ".beads/beads.db") = true
  /\ statOk (Stat env ".beads/issues.jsonl") = true
  /\ CheckDatabaseVersion env "." "0.49.0"
     = mkCheck "Database" "warning" "Fresh clone detected (no dolt database)"
         "Storage: Dolt" "Run 'bd init' to create and hydrate the dolt database"
  /\ Status (CheckDatabaseVersion env "." "0.49.0") <> StatusOK.
Proof. cbv zeta. repeat split; try reflexivity. discriminate. Qed.

End DoctorProperties.

Section ConfigProperties.
Import GoStrings Config.

Example keyPath_ex : keyPath "sync.mode" = ["sync"; "mode"] /\ keyPath "json" = ["json"]
                     /\ keyPath "a..b" = ["a"; ""; "b"].
Proof. repeat split; reflexivity. Qed.

Example setNestedKey_ex :
  setNestedKey sampleDoc "sync.mode" (VString "realtime") =
  <["sync" := VMap (<["mode" := VString "realtime"]> (<["export_on" := VString "push"]> ∅))]>
  (<["issue-prefix" := VString "bd"]>
  (<["labels" := VList [VString "a"; VString "b"]]> ∅)).
Proof. vm_compute. reflexivity. Qed.

Example GetValueSource_ex :
  GetValueSource "actor" sampleState = SourceEnvVar
  /\ GetValueSource "json" sampleState = SourceDefault
  /\ GetValueSource "sync.mode" sampleState = SourceConfigFile.
Proof. repeat split; vm_compute; reflexivity. Qed.

Example GetFieldStrategies_ex :
  fst (GetFieldStrategies sampleState) = <["labels" := "union"]> ∅
  /\ warnings (snd (GetFieldStrategies sampleState)) =
     [("Warning: invalid conflict.fields.%s strategy %q (valid: %s), skipping" +:+ LF,
       ["title"; "bogus"; "newest, ours, theirs, manual, union, max"])].
Proof. split; vm_compute; reflexivity. Qed.

(** A scalar that stands on the key path is replaced by a mapping; a flat
    key with a dot in its name is another key. *)
Example setNestedKey_through_scalar_ex :
  setNestedKey (<["sync" := VString "off"]> (<["sync.mode" := VString "flat"]> ∅))
    "sync.mode" (VString "realtime") =
  <["sync" := VMap (<["mode" := VString "realtime"]> ∅)]> (<["sync.mode" := VString "flat"]> ∅).
Proof. vm_compute. reflexivity. Qed.

Example SaveConfigValue_new_file_ex :
  let st := mkState (Some (mkViper "" ∅ ∅ (<["json" := VBool false]> ∅)))
              (<["BD_ACTOR" := "alice"]> ∅) ∅ ∅ [] in
  fst (SaveConfigValue "dolt.port" (VInt 3308) ".beads" st) = None
  /\ disk (snd (SaveConfigValue "dolt.port" (VInt 3308) ".beads" st))
     = <[".beads/config.yaml" := YamlDoc (<["dolt" := VMap (<["port" := VInt 3308]> ∅)]> ∅)]> ∅.
Proof. vm_compute. split; reflexivity. Qed.

Example SaveConfigValue_not_initialized_ex :
  SaveConfigValue "dolt.port" (VInt 3308) ".beads" (mkState None ∅ ∅ ∅ [])
  = (Some "config not initialized", mkState None ∅ ∅ ∅ []).
Proof. reflexivity. Qed.

(** The variable name of a key, byte by byte: a hyphen or a dot becomes an
    underscore, a lower-case letter its upper-case letter. *)
Lemma envKeyOf_bytes (prefix key : string) :
  envKeyOf prefix key =
  prefix +:+ mapBytes (fun c => if Ascii.eqb c "-" || Ascii.eqb c "." then "_"%char
                                else upperByte c) key.
Proof.
  unfold envKeyOf, ToUpper, ReplaceAll. f_equal.
  induction key as [|c key IH]; [reflexivity|].
  cbn [mapBytes]. rewrite IH. f_equal.
  destruct (Ascii.eqb c "-") eqn:Hh; [reflexivity|].
  destruct (Ascii.eqb c ".") eqn:Hd; reflexivity.
Qed.

Example envKeyOf_ex :
  envKeyOf "BD_" "sync.mode" = "BD_SYNC_MODE"
  /\ envKeyOf "BEADS_" "flush-debounce" = "BEADS_FLUSH_DEBOUNCE".
Proof. split; reflexivity. Qed.

(** [os.Getenv] does not tell a variable set to the empty string from one
    that is not set. *)
Lemma Getenv_empty_iff (environ : gmap string string) (key : string) :
  Getenv environ key = "" <-> environ !! key = None \/ environ !! key = Some "".
Proof.
  unfold Getenv. destruct (environ !! key) as [x|]; simpl.
  - split; [intros ->; now right | intros [?|[= ->]]; [discriminate | reflexivity]].
  - split; [now left | reflexivity].
Qed.

(** C9: [GetValueSource] reports the environment only when the variable
    with the prefix [BD_] or the legacy prefix [BEADS_] (dots and hyphens
    mapped to underscores, upper-cased) holds a non-empty string. A
    variable set to the empty string counts as not set: the source is then
    the config file when the key is in the loaded config file, and the
    default otherwise (also when no configuration is loaded). With a
    configuration loaded, a non-empty variable does give the environment
    as the source. *)
Theorem GetValueSource_env_only_when_nonempty (key : string) (st : State) :
  let toEnv := fun c => if Ascii.eqb c "-" || Ascii.eqb c "." then "_"%char else upperByte c in
  let bdKey := "BD_" +:+ mapBytes toEnv key in
  let beadsKey := "BEADS_" +:+ mapBytes toEnv key in
  (GetValueSource key st = SourceEnvVar ->
   (exists x, environ st !! bdKey = Some x /\ x <> "")
   \/ (exists x, environ st !! beadsKey = Some x /\ x <> ""))
  /\ ((environ st !! bdKey = None \/ environ st !! bdKey = Some "") ->
      (environ st !! beadsKey = None \/ environ st !! beadsKey = Some "") ->
      GetValueSource key st =
      match v st with
      | Some vp => if InConfig vp key then SourceConfigFile else SourceDefault
      | None => SourceDefault
      end)
  /\ (v st <> None ->
      (exists x, environ st !! bdKey = Some x /\ x <> "")
      \/ (exists x, environ st !! beadsKey = Some x /\ x <> "") ->
      GetValueSource key st = SourceEnvVar).
Proof.
  cbv zeta. rewrite <- !envKeyOf_bytes. unfold GetValueSource.
  change ("BD_" +:+ ToUpper (ReplaceAll (ReplaceAll key "-" "_") "." "_"))
    with (envKeyOf "BD_" key).
  change ("BEADS_" +:+ ToUpper (ReplaceAll (ReplaceAll key "-" "_") "." "_"))
    with (envKeyOf "BEADS_" key).
  split; [|split].
  - destruct (v st) as [vp|]; [|discriminate].
    unfold Getenv.
    destruct (environ st !! envKeyOf "BD_" key) as [x|] eqn:Hbd; simpl.
    + destruct (String.eqb_spec x ""); simpl; [|intros _; left; eauto].
      destruct (environ st !! envKeyOf "BEADS_" key) as [y|] eqn:Hbeads; simpl.
      * destruct (String.eqb_spec y ""); simpl; [|intros _; right; eauto].
        destruct (InConfig vp key); discriminate.
      * destruct (InConfig vp key); discriminate.
    + destruct (environ st !! envKeyOf "BEADS_" key) as [y|] eqn:Hbeads; simpl.
      * destruct (String.eqb_spec y ""); simpl; [|intros _; right; eauto].
        destruct (InConfig vp key); discriminate.
      * destruct (InConfig vp key); discriminate.
  - intros Hbd%Getenv_empty_iff Hbeads%Getenv_empty_iff.
    rewrite Hbd, Hbeads. reflexivity.
  - destruct (v st) as [vp|]; [intros _|congruence].
    unfold Getenv. intros [(x & Hbd & Hx)|(x & Hbeads & Hx)];
      apply String.eqb_neq in Hx.
    + rewrite Hbd. simpl. now rewrite Hx.
    + rewrite Hbeads. simpl. rewrite Hx. now destruct (negb _).
Qed.

(** [BD_JSON] is set to the empty string and [json] is not in the config
    file: the source is the default. *)
Lemma GetValueSource_env_only_when_nonempty_witness :
  GetValueSource "json" sampleState = SourceDefault.
Proof.
  destruct (GetValueSource_env_only_when_nonempty "json" sampleState) as (_ & Hempty & _).
  rewrite Hempty; [reflexivity | right; reflexivity | left; reflexivity].
Defined.

(** The loop, by induction on the map it ranges over: the result holds the
    valid strategies and nothing else, every invalid one is logged, and
    nothing but the log changes. *)
Lemma fieldStrategy_loop (st : State) (fieldsMap : gmap string string) :
  let r := map_fold fieldStrategyStep (∅, st) fieldsMap in
  (forall field, fst r !! field = fieldsMap !! field ≫= keptStrategy)
  /\ (forall field strategyStr,
        fieldsMap !! field = Some strategyStr -> keptStrategy strategyStr = None ->
        invalidStrategyWarning field strategyStr ∈ warnings (snd r))
  /\ (forall w, w ∈ warnings st -> w ∈ warnings (snd r))
  /\ v (snd r) = v st /\ environ (snd r) = environ st /\ disk (snd r) = disk st.
Proof.
  cbv zeta.
  apply (map_fold_weak_ind
           (fun (r : gmap string string * State) (m : gmap string string) =>
              (forall field, fst r !! field = m !! field ≫= keptStrategy)
              /\ (forall field strategyStr,
                    m !! field = Some strategyStr -> keptStrategy strategyStr = None ->
                    invalidStrategyWarning field strategyStr ∈ warnings (snd r))
              /\ (forall w, w ∈ warnings st -> w ∈ warnings (snd r))
              /\ v (snd r) = v st /\ environ (snd r) = environ st /\ disk (snd r) = disk st)).
  - repeat split; done.
  - intros i x m [result st1] Hfresh (Hres & Hlog & Hold & Hv & He & Hd).
    cbn [fst snd] in *. unfold fieldStrategyStep.
    destruct (validFieldStrategies (ToLower (TrimSpace x))) eqn:Hvalid; cbn [negb fst snd].
    + repeat split; try done.
      * intros field. destruct (decide (i = field)) as [->|Hne].
        -- rewrite !lookup_insert_eq. cbn. unfold keptStrategy. now rewrite Hvalid.
        -- rewrite !lookup_insert_ne by done. apply Hres.
      * intros field strategyStr Hin Hkept.
        destruct (decide (i = field)) as [->|Hne].
        -- rewrite lookup_insert_eq in Hin. injection Hin as ->.
           unfold keptStrategy in Hkept. now rewrite Hvalid in Hkept.
        -- rewrite lookup_insert_ne in Hin by done. eauto.
    + repeat split; try done; cbn [warnings logConfigWarning].
      * intros field. destruct (decide (i = field)) as [->|Hne].
        -- rewrite lookup_insert_eq. cbn. unfold keptStrategy. rewrite Hvalid.
           rewrite Hres, Hfresh. reflexivity.
        -- rewrite lookup_insert_ne by done. apply Hres.
      * intros field strategyStr Hin Hkept. apply elem_of_app.
        destruct (decide (i = field)) as [->|Hne].
        -- rewrite lookup_insert_eq in Hin. injection Hin as ->.
           right. apply list_elem_of_singleton. reflexivity.
        -- rewrite lookup_insert_ne in Hin by done. left. eauto.
      * intros w Hw. apply elem_of_app. left. auto.
Qed.

(** [GetFieldStrategies] keeps exactly the valid strategies. *)
Lemma GetFieldStrategies_lookup (st : State) (vp : Viper) (field : string) :
  v st = Some vp ->
  fst (GetFieldStrategies st) !! field =
  Viper_GetStringMapString vp (environ st) "conflict.fields" !! field ≫= keptStrategy.
Proof.
  intros Hv. unfold GetFieldStrategies. rewrite Hv.
  apply (fieldStrategy_loop st).
Qed.

(** C4, as the code has it: for every field whose configured per-field
    strategy is not a valid field strategy, the strategy is logged and
    ignored: [GetFieldStrategies] logs a warning for it and omits the field
    from its result, and [GetFieldStrategy] returns the built-in default
    [newest] for it, whatever the globally configured strategy is. *)
Theorem invalid_field_strategy_ignored
  (st : State) (vp : Viper) (field strategyStr : string) :
  v st = Some vp ->
  Viper_GetStringMapString vp (environ st) "conflict.fields" !! field = Some strategyStr ->
  validFieldStrategies (ToLower (TrimSpace strategyStr)) = false ->
  fst (GetFieldStrategies st) !! field = None
  /\ ("Warning: invalid conflict.fields.%s strategy %q (valid: %s), skipping" +:+ LF,
      [field; strategyStr; "newest, ours, theirs, manual, union, max"])
     ∈ warnings (snd (GetFieldStrategies st))
  /\ fst (GetFieldStrategy field st) = FieldStrategyNewest
  /\ fst (GetFieldStrategy field st) = "newest".
Proof.
  intros Hv Hfield Hinvalid.
  assert (Hkept : keptStrategy strategyStr = None)
    by (unfold keptStrategy; now rewrite Hinvalid).
  assert (Hnone : fst (GetFieldStrategies st) !! field = None)
    by (rewrite (GetFieldStrategies_lookup st vp field Hv), Hfield; exact Hkept).
  repeat apply conj.
  - exact Hnone.
  - unfold GetFieldStrategies. rewrite Hv.
    apply (fieldStrategy_loop st _) with (field := field) (strategyStr := strategyStr);
      assumption.
  - unfold GetFieldStrategy. destruct (GetFieldStrategies st) as [fields st'].
    cbn [fst] in Hnone. now rewrite Hnone.
  - unfold GetFieldStrategy. destruct (GetFieldStrategies st) as [fields st'].
    cbn [fst] in Hnone. now rewrite Hnone.
Qed.

(** The field [title] is configured with the strategy [bogus]. *)
Lemma invalid_field_strategy_ignored_witness :
  fst (GetFieldStrategies sampleState) !! "title" = None
  /\ fst (GetFieldStrategy "title" sampleState) = "newest".
Proof.
  destruct (invalid_field_strategy_ignored sampleState sampleViper "title" "bogus")
    as (Homitted & _ & _ & Hnewest); [reflexivity | reflexivity | reflexivity |].
  split; [exact Homitted | exact Hnewest].
Defined.

(** C4 as stated fails where the global strategy is not [newest]: with
    [conflict.strategy: ours] and the invalid [conflict.fields.title:
    bogus], [GetFieldStrategy] returns [newest] for [title], not [ours]. *)
Lemma GetFieldStrategy_not_global_counterexample :
  Viper_GetStringMapString sampleViper (environ sampleState) "conflict.fields" !! "title"
  = Some "bogus"
  /\ validFieldStrategies (ToLower (TrimSpace "bogus")) = false
  /\ GetConflictStrategy sampleState = "ours"
  /\ fst (GetFieldStrategy "title" sampleState) = "newest"
  /\ fst (GetFieldStrategy "title" sampleState) <> GetConflictStrategy sampleState.
Proof. repeat split; try (vm_compute; reflexivity). vm_compute. discriminate. Qed.

(** The rest of a split key is shorter than the key. *)
Lemma SplitN2_shorter (key part0 part1 : string) :
  SplitN2 key = Some (part0, part1) ->
  (String.length part1 < String.length key)%nat.
Proof.
  revert part0. induction key as [|c rest IH]; intros part0; simpl; [discriminate|].
  destruct (Ascii.eqb c ".").
  - intros [= <- <-]. lia.
  - destruct (SplitN2 rest) as [[p0 p1]|]; [|discriminate].
    intros [= <- <-]. specialize (IH p0 eq_refl). lia.
Qed.

(** The two cases of [setNestedKey]. *)
Lemma setNestedKey_leaf (m : gmap string Value) (key : string) (value : Value) :
  SplitN2 key = None -> setNestedKey m key value = <[key := value]> m.
Proof.
  intros Hsplit. funelim (setNestedKey m key value); congruence.
Qed.

Lemma setNestedKey_node (m : gmap string Value) (key part0 part1 : string) (value : Value) :
  SplitN2 key = Some (part0, part1) ->
  setNestedKey m key value = <[part0 := VMap (setNestedKey (subMap m part0) part1 value)]> m.
Proof.
  intros Hsplit. funelim (setNestedKey m key value); congruence.
Qed.

(** [keyPath] follows the same split. *)
Lemma keyPath_nonempty (key : string) : keyPath key <> [].
Proof.
  destruct key as [|c rest]; simpl; [discriminate|].
  destruct (Ascii.eqb c "."); [discriminate|].
  destruct (keyPath rest); discriminate.
Qed.

Lemma keyPath_leaf (key : string) : SplitN2 key = None -> keyPath key = [key].
Proof.
  induction key as [|c rest IH]; simpl; [reflexivity|].
  destruct (Ascii.eqb c "."); [discriminate|].
  destruct (SplitN2 rest) as [[p0 p1]|]; [discriminate|].
  intros _. now rewrite IH.
Qed.

Lemma keyPath_node (key part0 part1 : string) :
  SplitN2 key = Some (part0, part1) -> keyPath key = part0 :: keyPath part1.
Proof.
  revert part0. induction key as [|c rest IH]; intros part0; simpl; [discriminate|].
  destruct (Ascii.eqb c ".").
  - now intros [= <- <-].
  - destruct (SplitN2 rest) as [[p0 p1]|]; [|discriminate].
    intros [= <- <-]. now rewrite (IH p0 eq_refl).
Qed.

(** No path leads anywhere in an empty mapping, or through a scalar. *)
Lemma lookupPath_dead_end (path : list string) (x : Value) :
  path <> [] ->
  match x with VMap m => m = ∅ | _ => True end ->
  lookupPath path x = None.
Proof.
  destruct path as [|k rest]; [done|]. intros _ Hx.
  destruct x; cbn [lookupPath]; try reflexivity. subst. now rewrite lookup_empty.
Qed.

(** The key reads back the value that was set. *)
Lemma setNestedKey_lookup (key : string) (m : gmap string Value) (value : Value) :
  lookupPath (keyPath key) (VMap (setNestedKey m key value)) = Some value.
Proof.
  remember (String.length key) as n eqn:Hn. revert key Hn m.
  induction n as [n IH] using lt_wf_ind. intros key Hn m.
  destruct (SplitN2 key) as [[part0 part1]|] eqn:Hsplit.
  - rewrite (setNestedKey_node m key part0 part1 value Hsplit), (keyPath_node _ _ _ Hsplit).
    cbn [lookupPath]. rewrite lookup_insert_eq.
    apply (IH (String.length part1)); [|reflexivity].
    subst n. eapply SplitN2_shorter; eassumption.
  - rewrite (setNestedKey_leaf m key value Hsplit), (keyPath_leaf _ Hsplit).
    cbn [lookupPath]. now rewrite lookup_insert_eq.
Qed.

(** Frame: a path that neither leads to the key nor goes through it reads
    the same before and after, present or not. *)
Lemma setNestedKey_frame (key : string) (m : gmap string Value) (value : Value)
  (path : list string) :
  ~ path `prefix_of` keyPath key ->
  ~ keyPath key `prefix_of` path ->
  lookupPath path (VMap (setNestedKey m key value)) = lookupPath path (VMap m).
Proof.
  remember (String.length key) as n eqn:Hn. revert key Hn m path.
  induction n as [n IH] using lt_wf_ind. intros key Hn m path Hnot_above Hnot_below.
  destruct path as [|k rest]; [exfalso; apply Hnot_above, prefix_nil|].
  destruct (SplitN2 key) as [[part0 part1]|] eqn:Hsplit.
  - rewrite (setNestedKey_node m key part0 part1 value Hsplit).
    rewrite (keyPath_node _ _ _ Hsplit) in Hnot_above, Hnot_below.
    cbn [lookupPath]. destruct (decide (part0 = k)) as [->|Hne].
    + rewrite lookup_insert_eq.
      assert (Hrest : rest <> [])
        by (intros ->; apply Hnot_above, prefix_cons, prefix_nil).
      rewrite (IH (String.length part1)); [ | | reflexivity | | ].
      * unfold subMap. destruct (m !! k) as [[ | | | |sub]|]; try reflexivity;
          rewrite !lookupPath_dead_end; done.
      * subst n. eapply SplitN2_shorter; eassumption.
      * intros Hp. apply Hnot_above. now apply prefix_cons.
      * intros Hp. apply Hnot_below. now apply prefix_cons.
    + now rewrite lookup_insert_ne.
  - rewrite (setNestedKey_leaf m key value Hsplit).
    rewrite (keyPath_leaf _ Hsplit) in Hnot_below.
    cbn [lookupPath]. destruct (decide (key = k)) as [->|Hne].
    + exfalso. apply Hnot_below, prefix_cons, prefix_nil.
    + now rewrite lookup_insert_ne.
Qed.

(** What [SaveConfigValue] does to the disk, in one equation. *)
Lemma SaveConfigValue_disk
  (key : string) (value : Value) (beadsDir : string) (st : State) (vp : Viper) :
  v st = Some vp ->
  let configPath :=
    if String.eqb (configFile vp) "" then Join beadsDir "config.yaml" else configFile vp in
  let existing :=
    match disk st !! configPath with Some (YamlDoc doc) => doc | _ => ∅ end in
  SaveConfigValue key value beadsDir st =
  WriteFile configPath (YamlDoc (setNestedKey existing key value))
    (setViper (if String.eqb (configFile vp) "" then
                 SetConfigFile configPath (Viper_Set key value vp)
               else Viper_Set key value vp) st).
Proof.
  intros Hv. cbv zeta. unfold SaveConfigValue. rewrite Hv.
  unfold ConfigFileUsed. cbn [Viper_Set configFile].
  destruct (String.eqb (configFile vp) ""); reflexivity.
Qed.

(** C6: [SaveConfigValue] modifies only the given dot-separated key path
    in the YAML config file. The file written is the file read with the
    one key set: the key reads back the value, every path of keys that
    neither leads to the key nor goes through it reads exactly what it
    read before (so every other key in the file keeps its value, and no
    key that was not in the file appears), no other file changes, and what
    is written does not depend on the defaults, the environment or the
    values held by viper. When the file cannot be written the disk is
    left as it was and an error is returned. *)
Theorem SaveConfigValue_modifies_only_key
  (key : string) (value : Value) (beadsDir : string) (st : State) (vp : Viper) :
  v st = Some vp ->
  let configPath :=
    if String.eqb (configFile vp) "" then Join beadsDir "config.yaml" else configFile vp in
  let existing :=
    match disk st !! configPath with Some (YamlDoc doc) => doc | _ => ∅ end in
  let err := fst (SaveConfigValue key value beadsDir st) in
  let st' := snd (SaveConfigValue key value beadsDir st) in
  (configPath ∉ readOnly st ->
   err = None
   /\ exists written,
       disk st' !! configPath = Some (YamlDoc written)
       /\ written = setNestedKey existing key value
       /\ lookupPath (keyPath key) (VMap written) = Some value
       /\ (forall path,
             ~ path `prefix_of` keyPath key -> ~ keyPath key `prefix_of` path ->
             lookupPath path (VMap written) = lookupPath path (VMap existing)))
  /\ (configPath ∈ readOnly st -> err <> None /\ disk st' = disk st)
  /\ (forall other, other <> configPath -> disk st' !! other = disk st !! other)
  /\ (forall override2 config2 defaults2 environ2 warnings2,
        disk (snd (SaveConfigValue key value beadsDir
                     (mkState (Some (mkViper (configFile vp) override2 config2 defaults2))
                        environ2 (disk st) (readOnly st) warnings2)))
        = disk st').
Proof.
  intros Hv. cbv zeta.
  rewrite (SaveConfigValue_disk key value beadsDir st vp Hv).
  set (configPath :=
         if String.eqb (configFile vp) "" then Join beadsDir "config.yaml" else configFile vp).
  set (existing := match disk st !! configPath with Some (YamlDoc doc) => doc | _ => ∅ end).
  unfold WriteFile. cbn [setViper readOnly disk v environ warnings].
  repeat apply conj.
  - intros Hw. rewrite bool_decide_eq_false_2 by exact Hw. cbn [fst snd disk].
    split; [reflexivity|]. exists (setNestedKey existing key value).
    rewrite lookup_insert_eq. repeat split.
    + apply setNestedKey_lookup.
    + intros path. apply setNestedKey_frame.
  - intros Hro. rewrite bool_decide_eq_true_2 by exact Hro. cbn [fst snd disk].
    split; [discriminate | reflexivity].
  - intros other Hother. case_bool_decide; cbn [snd disk]; [reflexivity|].
    now rewrite lookup_insert_ne.
  - intros override2 config2 defaults2 environ2 warnings2.
    rewrite (SaveConfigValue_disk key value beadsDir
               (mkState (Some (mkViper (configFile vp) override2 config2 defaults2))
                  environ2 (disk st) (readOnly st) warnings2)
               (mkViper (configFile vp) override2 config2 defaults2) eq_refl).
    cbn [configFile disk readOnly]. fold configPath. fold existing.
    unfold WriteFile. cbn [setViper readOnly disk v environ warnings].
    case_bool_decide; reflexivity.
Qed.

(** Setting [sync.mode] in the sample file: the key reads back, its sibling
    and the other top-level keys keep their values. *)
Lemma SaveConfigValue_modifies_only_key_witness :
  fst (SaveConfigValue "sync.mode" (VString "realtime") ".beads" sampleState) = None
  /\ exists written,
      disk (snd (SaveConfigValue "sync.mode" (VString "realtime") ".beads" sampleState))
        !! ".beads/config.yaml" = Some (YamlDoc written)
      /\ lookupPath ["sync"; "mode"] (VMap written) = Some (VString "realtime")
      /\ lookupPath ["sync"; "export_on"] (VMap written) = Some (VString "push")
      /\ lookupPath ["issue-prefix"] (VMap written) = Some (VString "bd")
      /\ lookupPath ["json"] (VMap written) = None.
Proof.
  destruct (SaveConfigValue_modifies_only_key
              "sync.mode" (VString "realtime") ".beads" sampleState sampleViper eq_refl)
    as (Hwritten & _).
  destruct Hwritten as [Herr (written & Hdisk & _ & Hkey & Hframe)];
    [apply not_elem_of_empty|].
  split; [exact Herr|]. exists written.
  split; [exact Hdisk|]. split; [exact Hkey|].
  repeat split.
  - rewrite Hframe; [reflexivity | |]; intros [k Hk]; discriminate Hk.
  - rewrite Hframe; [reflexivity | |]; intros [k Hk]; discriminate Hk.
  - rewrite Hframe; [reflexivity | |]; intros [k Hk]; discriminate Hk.
Defined.

End ConfigProperties.

(** ** The changelog *)

Section ChangelogProperties.
Import GoStrings Changelog.

Example getVersionsSince_oldest_ex :
  Version <$> getVersionsSince sampleChanges "0.21.0" = ["0.22.0"; "0.22.1"; "0.23.0"].
Proof. reflexivity. Qed.

Example getVersionsSince_counts_ex :
  length (getVersionsSince sampleChanges "") = 4%nat
  /\ length (getVersionsSince sampleChanges "0.1.0") = 4%nat
  /\ length (getVersionsSince sampleChanges "0.23.0") = 0%nat.
Proof. repeat split; reflexivity. Qed.

(** Where [findVersion] stops: at the first entry of the version, with no
    entry of that version before it. *)
Lemma findVersion_spec (sinceVersion : string) (entries : list VersionChange) :
  match findVersion sinceVersion entries with
  | Some idx =>
      exists entry older,
        entries = (take idx entries ++ entry :: older)%list
        /\ Version entry = sinceVersion
        /\ Forall (fun vc => Version vc <> sinceVersion) (take idx entries)
  | None => Forall (fun vc => Version vc <> sinceVersion) entries
  end.
Proof.
  induction entries as [|vc rest IH]; cbn [findVersion]; [constructor|].
  destruct (String.eqb_spec (Version vc) sinceVersion) as [Heq|Hne].
  - exists vc, rest. cbn. repeat split; [exact Heq | constructor].
  - destruct (findVersion sinceVersion rest) as [idx|]; cbn.
    + destruct IH as (entry & older & Hsplit & Hv & Hnewer).
      exists entry, older. repeat split; [congruence | exact Hv | now constructor].
    + now constructor.
Qed.

(** Reversing a list sorted newest-first gives a list sorted oldest-first. *)
Lemma StronglySorted_rev {A : Type} (R : relation A) (l : list A) :
  StronglySorted R l -> StronglySorted (flip R) (rev l).
Proof.
  induction 1 as [|x l Hl IH Hx]; cbn [rev]; [constructor|].
  apply StronglySorted_app; repeat split.
  - intros y z Hy Hz. apply list_elem_of_singleton in Hz as ->.
    rewrite Forall_forall in Hx. apply Hx, list_elem_of_In, in_rev.
    now apply list_elem_of_In.
  - exact IH.
  - repeat constructor.
Qed.

Lemma StronglySorted_take {A : Type} (R : relation A) (n : nat) (l : list A) :
  StronglySorted R l -> StronglySorted R (take n l).
Proof.
  intros Hl. rewrite <- (take_drop n l) in Hl. now apply StronglySorted_app_1_l in Hl.
Qed.

(** C1: over a changelog whose entries all carry a version,
    [getVersionsSince v] returns exactly the entries strictly newer than
    [v] (those that stand before the entry of [v] in the newest-first
    table), ordered oldest first, and never an entry of [v] itself. When
    [v] is the empty string or does not occur in the changelog, the result
    is the whole changelog in chronological order, so its length is the
    changelog's length. When [v] is the version of the latest entry, the
    result is empty. Oldest first: whatever order the newest-first table
    is sorted by, the result is sorted by its converse. *)
Theorem getVersionsSince_chronology (versionChanges : list VersionChange) (v : string) :
  Forall (fun vc => Version vc <> "") versionChanges ->
  let result := getVersionsSince versionChanges v in
  (v ∈ Version <$> versionChanges ->
   exists newer entry older,
     versionChanges = (newer ++ entry :: older)%list
     /\ Version entry = v
     /\ result = rev newer)
  /\ (forall vc, vc ∈ result -> Version vc <> v)
  /\ (v = "" \/ v ∉ Version <$> versionChanges ->
      result = rev versionChanges /\ length result = length versionChanges)
  /\ (forall latest rest,
        versionChanges = latest :: rest -> v = Version latest -> result = [])
  /\ (forall R : relation VersionChange,
        StronglySorted R versionChanges -> StronglySorted (flip R) result).
Proof.
  intros Hnonempty. cbv zeta. unfold getVersionsSince.
  assert (Hin_nonempty : v ∈ Version <$> versionChanges -> v <> "").
  { intros (vc & -> & Hvc)%list_elem_of_fmap.
    rewrite Forall_forall in Hnonempty. now apply Hnonempty. }
  destruct (String.eqb_spec v "") as [Hempty|Hne].
  { repeat apply conj.
    - intros Hin. now apply Hin_nonempty in Hin.
    - intros vc Hvc. apply list_elem_of_In, in_rev, list_elem_of_In in Hvc.
      rewrite Forall_forall in Hnonempty. rewrite Hempty. now apply Hnonempty.
    - intros _. split; [reflexivity | apply length_rev].
    - intros latest rest -> Hl. inversion Hnonempty; congruence.
    - intros R. apply StronglySorted_rev. }
  pose proof (findVersion_spec v versionChanges) as Hfind.
  destruct (findVersion v versionChanges) as [idx|] eqn:Hidx.
  - destruct Hfind as (entry & older & Hsplit & Hv & Hnewer).
    repeat apply conj.
    + intros _. now exists (take idx versionChanges), entry, older.
    + intros vc Hvc. apply list_elem_of_In, in_rev, list_elem_of_In in Hvc.
      rewrite Forall_forall in Hnewer. now apply Hnewer.
    + intros [Hv0|Hnotin]; [congruence|]. exfalso. apply Hnotin.
      apply list_elem_of_fmap. exists entry. split; [congruence|].
      rewrite Hsplit. apply elem_of_app. right. left.
    + intros latest rest -> Hl. cbn [findVersion] in Hidx.
      rewrite Hl, String.eqb_refl in Hidx. injection Hidx as <-. reflexivity.
    + intros R HR. now apply StronglySorted_rev, StronglySorted_take.
  - repeat apply conj.
    + intros (vc & -> & Hvc)%list_elem_of_fmap.
      rewrite Forall_forall in Hfind. now apply Hfind in Hvc.
    + intros vc Hvc. apply list_elem_of_In, in_rev, list_elem_of_In in Hvc.
      rewrite Forall_forall in Hfind. now apply Hfind.
    + intros _. split; [reflexivity | apply length_rev].
    + intros latest rest -> Hl. inversion Hfind; congruence.
    + intros R. apply StronglySorted_rev.
Qed.

(** On the sample changelog: nothing is newer than the latest version, and
    three entries are newer than the oldest, oldest first. *)
Lemma getVersionsSince_chronology_witness :
  getVersionsSince sampleChanges "0.23.0" = []
  /\ exists newer entry older,
      sampleChanges = (newer ++ entry :: older)%list
      /\ Version entry = "0.21.0"
      /\ getVersionsSince sampleChanges "0.21.0" = rev newer.
Proof.
  assert (Hnonempty : Forall (fun vc => Version vc <> "") sampleChanges)
    by (repeat constructor; discriminate).
  split.
  - destruct (getVersionsSince_chronology sampleChanges "0.23.0" Hnonempty)
      as (_ & _ & _ & Hlatest & _).
    exact (Hlatest _ _ eq_refl eq_refl).
  - destruct (getVersionsSince_chronology sampleChanges "0.21.0" Hnonempty)
      as (Hnewer & _).
    apply Hnewer. repeat constructor.
Defined.

End ChangelogProperties.

(** ** The version tracker *)

Section VersionTrackingProperties.
Import GoStrings VersionTracking.

Example sampleCompare_ex :
  sampleCompare "0.22.0" "0.23.0" = Lt /\ sampleCompare "99.99.99" "0.23.0" = Gt
  /\ sampleCompare "0.23.0" "0.23.0" = Eq /\ sampleCompare "0.9.0" "0.10.0" = Lt.
Proof. repeat split; reflexivity. Qed.

Example trackBdVersion_upgrade_ex :
  trackBdVersion "0.23.0" sampleCompare (sampleState (Some "0.22.0")) =
  mkState "/repo/.beads"
    (<["/repo/.beads/.local_version" := "0.23.0"]> (<["/repo/.beads/metadata.json" := "{}"]> ∅))
    true "0.22.0".
Proof. vm_compute. reflexivity. Qed.

Example trackBdVersion_same_version_ex :
  trackBdVersion "0.23.0" sampleCompare (sampleState (Some "0.23.0"))
  = sampleState (Some "0.23.0").
Proof. vm_compute. reflexivity. Qed.

Example trackBdVersion_no_beads_dir_ex :
  trackBdVersion "0.23.0" sampleCompare (mkState "" ∅ false "") = mkState "" ∅ false "".
Proof. reflexivity. Qed.

(** C2: when [.local_version] holds a version strictly newer than the
    binary's (a downgrade), [trackBdVersion] leaves the two variables as
    they are, so [versionUpgradeDetected] stays false and
    [previousVersion] stays empty, and it still overwrites the file with
    the binary's version; no other file changes. *)
Theorem trackBdVersion_downgrade_ignored
  (Version : string) (compareVersions : string -> string -> comparison)
  (st : State) (lastVersion : string) :
  beadsDir st <> "" ->
  readLocalVersion (Join (beadsDir st) localVersionFile) st = Some lastVersion ->
  compareVersions lastVersion Version = Gt ->
  versionUpgradeDetected st = false ->
  previousVersion st = "" ->
  let st' := trackBdVersion Version compareVersions st in
  versionUpgradeDetected st' = false
  /\ previousVersion st' = ""
  /\ readLocalVersion (Join (beadsDir st) localVersionFile) st' = Some Version
  /\ (forall other, other <> Join (beadsDir st) localVersionFile ->
        files st' !! other = files st !! other).
Proof.
  intros Hdir Hread Hnewer Hflag Hprev. cbv zeta. unfold trackBdVersion.
  apply String.eqb_neq in Hdir. rewrite Hdir, Hread, Hnewer.
  unfold readLocalVersion, writeLocalVersion. cbn [files versionUpgradeDetected previousVersion].
  split; [exact Hflag|]. split; [exact Hprev|]. split; [apply lookup_insert_eq|].
  intros other Hother. now rewrite lookup_insert_ne.
Qed.

(** The downgrade scenario: [.local_version] holds 99.99.99, the binary is
    0.23.0. *)
Lemma trackBdVersion_downgrade_ignored_witness :
  let st' := trackBdVersion "0.23.0" sampleCompare (sampleState (Some "99.99.99")) in
  versionUpgradeDetected st' = false
  /\ previousVersion st' = ""
  /\ readLocalVersion "/repo/.beads/.local_version" st' = Some "0.23.0".
Proof.
  destruct (trackBdVersion_downgrade_ignored "0.23.0" sampleCompare
              (sampleState (Some "99.99.99")) "99.99.99")
    as (Hflag & Hprev & Hfile & _);
    [discriminate | reflexivity | reflexivity | reflexivity | reflexivity |].
  cbv zeta. split; [exact Hflag|]. split; [exact Hprev | exact Hfile].
Defined.

(** C8: when the located [.beads] directory has no [.local_version],
    [trackBdVersion] creates the file with the binary's version and
    reports no upgrade: [versionUpgradeDetected] stays false (and
    [previousVersion] stays as it was). *)
Theorem trackBdVersion_first_run
  (Version : string) (compareVersions : string -> string -> comparison) (st : State) :
  beadsDir st <> "" ->
  readLocalVersion (Join (beadsDir st) localVersionFile) st = None ->
  versionUpgradeDetected st = false ->
  let st' := trackBdVersion Version compareVersions st in
  readLocalVersion (Join (beadsDir st) localVersionFile) st' = Some Version
  /\ versionUpgradeDetected st' = false
  /\ previousVersion st' = previousVersion st
  /\ (forall other, other <> Join (beadsDir st) localVersionFile ->
        files st' !! other = files st !! other).
Proof.
  intros Hdir Hread Hflag. cbv zeta. unfold trackBdVersion.
  apply String.eqb_neq in Hdir. rewrite Hdir, Hread.
  unfold readLocalVersion, writeLocalVersion. cbn [files versionUpgradeDetected previousVersion].
  split; [apply lookup_insert_eq|]. split; [exact Hflag|]. split; [reflexivity|].
  intros other Hother. now rewrite lookup_insert_ne.
Qed.

(** The first-run scenario: a [.beads] directory with a database file
    only. *)
Lemma trackBdVersion_first_run_witness :
  let st' := trackBdVersion "0.23.0" sampleCompare (sampleState None) in
  readLocalVersion "/repo/.beads/.local_version" st' = Some "0.23.0"
  /\ versionUpgradeDetected st' = false.
Proof.
  destruct (trackBdVersion_first_run "0.23.0" sampleCompare (sampleState None))
    as (Hfile & Hflag & _); [discriminate | reflexivity | reflexivity |].
  cbv zeta. split; [exact Hfile | exact Hflag].
Defined.

End VersionTrackingProperties.

(** ** The command [bd dolt] *)

Section DoltCmdProperties.
Import GoStrings DoltCmd.

Example setDoltConfig_port_ex :
  let r := @setDoltConfig sampleExternals "port" "9999" false sampleWorld in
  fst r = Returned tt
  /\ metadataJSON (snd r) !! "/repo/.beads/metadata.json"
     = Some (ValidMetadata (mkConfig "dolt" "server" "beads" "127.0.0.1" 9999 "root"))
  /\ textFiles (snd r) !! "/repo/.beads/dolt-config.log"
     = Some ("2025-11-08T10:00:00Z actor=bob key=mode value=server beads_dir=/repo/.beads" +:+ LF +:+
             "2025-11-09T12:00:00Z actor=alice key=port value=9999 beads_dir=/repo/.beads" +:+ LF)
  /\ stdout (snd r) = ["Set port = 9999 (in metadata.json)" +:+ LF].
Proof. vm_compute. repeat split; reflexivity. Qed.

Example setDoltConfig_bad_port_ex :
  @setDoltConfig sampleExternals "port" "70000" true sampleWorld =
  (Exited 1,
   withStderr ["Error: port must be a valid port number (1-65535)" +:+ LF] sampleWorld).
Proof. vm_compute. reflexivity. Qed.

Example testServerConnection_ex :
  fst (@testServerConnection sampleExternals sampleConfig sampleWorld) = Returned true
  /\ fst (@testServerConnection sampleExternals
            (mkConfig "dolt" "server" "beads" "192.0.2.1" 3307 "root") sampleWorld)
     = Returned false.
Proof. split; vm_compute; reflexivity. Qed.

(** The switch refuses such a setting with a message and exit code 1. *)
Lemma applySetting_refused (key value : string) (cfg : Config) (w : World) :
  refusedSetting key value ->
  exists messages,
    applySetting key value cfg w = (Exited 1, withStderr (stderr w ++ messages) w)
    /\ messages <> [].
Proof.
  unfold applySetting. intros [[-> Hport]|[[Hkey ->]|[Hunknown|(-> & He & Hs)]]].
  - cbn [String.eqb Ascii.eqb Bool.eqb].
    destruct (Atoi value) as [port|] eqn:Hatoi.
    + destruct (Z.leb_spec port 0); destruct (Z.ltb_spec 65535 port); cbn [orb];
        try (eexists; split; [reflexivity | discriminate]).
      exfalso. apply (Hport port eq_refl). lia.
    + eexists; split; [reflexivity | discriminate].
  - destruct Hkey as [->|[->| ->]]; cbn [String.eqb Ascii.eqb Bool.eqb];
      eexists; (split; [reflexivity | discriminate]).
  - destruct Hunknown as (Hm & Hd & Hh & Hp & Hu).
    apply String.eqb_neq in Hm, Hd, Hh, Hp, Hu. rewrite Hm, Hd, Hh, Hp, Hu.
    eexists [_; _]. split; [|discriminate].
    unfold bind, eprint, Exit. cbn [stderr withStderr]. rewrite <- app_assoc. reflexivity.
  - cbn [String.eqb Ascii.eqb Bool.eqb].
    apply String.eqb_neq in He, Hs. unfold DoltModeEmbedded, DoltModeServer.
    rewrite He, Hs. cbn [negb andb].
    eexists; split; [reflexivity | discriminate].
Qed.

(** C10: for every value that does not parse as an integer between 1 and
    65535, [setDoltConfig] with the key [port] reports an error and
    terminates (exit code 1) without appending an audit-log entry and
    without saving, so [metadata.json] and every other file are left
    unchanged; the same holds for an empty value of [database], [host] or
    [user], for an unknown key, and for a [mode] other than [embedded] or
    [server]. It holds in every world, whatever the repository looks
    like. *)
Theorem setDoltConfig_refused_is_atomic `{Externals}
  (key value : string) (updateConfig : bool) (w : World) :
  (key = "port" /\ forall port, Atoi value = Some port -> ~ (1 <= port <= 65535))
  \/ ((key = "database" \/ key = "host" \/ key = "user") /\ value = "")
  \/ (key <> "mode" /\ key <> "database" /\ key <> "host" /\ key <> "port" /\ key <> "user")
  \/ (key = "mode" /\ value <> "embedded" /\ value <> "server") ->
  let r := setDoltConfig key value updateConfig w in
  fst r = Exited 1
  /\ (exists messages, messages <> [] /\ stderr (snd r) = (stderr w ++ messages)%list)
  /\ metadataJSON (snd r) = metadataJSON w
  /\ textFiles (snd r) = textFiles w
  /\ stdout (snd r) = stdout w.
Proof.
  intros Hrefused. cbv zeta.
  assert (Hexit : exists messages,
             setDoltConfig key value updateConfig w
             = (Exited 1, withStderr (stderr w ++ messages) w) /\ messages <> []).
  { unfold setDoltConfig, bind at 1, FindBeadsDir.
    unfold bind at 1.
    destruct (String.eqb (beadsDir w) "").
    { eexists; split; [reflexivity | discriminate]. }
    unfold ret at 1. unfold bind at 1, Load.
    destruct (metadataJSON w !! Join (beadsDir w) "metadata.json") as [[cfg|err]|].
    - unfold bind at 1, ret at 1. unfold bind at 1.
      destruct (negb (String.eqb (GetBackend cfg) BackendDolt)).
      { eexists; split; [reflexivity | discriminate]. }
      unfold ret at 1. unfold bind at 1.
      destruct (applySetting_refused key value cfg w Hrefused) as (messages & -> & Hne).
      now exists messages.
    - eexists; split; [reflexivity | discriminate].
    - unfold bind at 1, ret at 1. unfold bind at 1.
      destruct (negb (String.eqb (GetBackend DefaultConfig) BackendDolt)).
      { eexists; split; [reflexivity | discriminate]. }
      unfold ret at 1. unfold bind at 1.
      destruct (applySetting_refused key value DefaultConfig w Hrefused)
        as (messages & -> & Hne).
      now exists messages. }
  destruct Hexit as (messages & -> & Hne). cbn [fst snd].
  split; [reflexivity|]. split; [now exists messages|]. repeat split.
Qed.

(** The port 70000 in the sample repository. *)
Lemma setDoltConfig_refused_is_atomic_witness :
  let r := @setDoltConfig sampleExternals "port" "70000" false sampleWorld in
  fst r = Exited 1
  /\ metadataJSON (snd r) = metadataJSON sampleWorld
  /\ textFiles (snd r) = textFiles sampleWorld.
Proof.
  destruct (@setDoltConfig_refused_is_atomic sampleExternals "port" "70000" false sampleWorld)
    as (Hexit & _ & Hmeta & Hlog & _).
  - left. split; [reflexivity|]. intros port Hport. vm_compute in Hport.
    injection Hport as <-. lia.
  - cbv zeta. split; [exact Hexit|]. split; [exact Hmeta | exact Hlog].
Defined.

(** [testServerConnection], with the dial and the close carried out. *)
Lemma testServerConnection_unfold `{Externals} (cfg : Config) (w : World) :
  let addr := JoinHostPort (GetDoltServerHost cfg (environ w))
                           (Itoa (GetDoltServerPort cfg (environ w))) in
  let w1 := withNet (dialed w ++ [("tcp", addr, 3 * Second)]) (closed w) w in
  testServerConnection cfg w =
  if bool_decide (addr ∈ listening w)
  then (Returned true, withNet (dialed w1) (closed w1 ++ [addr]) w1)
  else (Returned false, w1).
Proof.
  cbv zeta. unfold testServerConnection, bind, getWorld, DialTimeout, Close, ret.
  cbn [String.eqb Ascii.eqb Bool.eqb andb].
  case_bool_decide; reflexivity.
Qed.

(** C7: [testServerConnection] makes one dial, over TCP, of the configured
    host and port joined as an address, with a timeout of three seconds.
    It returns false whenever the dial fails (no connection: nothing is
    closed) and true exactly when the dial succeeds (the connection is
    then closed). An address that no dial reaches, such as 192.0.2.1:3307,
    gives false. Nothing on disk or on the output streams changes. *)
Theorem testServerConnection_dials_with_timeout `{Externals} (cfg : Config) (w : World) :
  let addr := JoinHostPort (GetDoltServerHost cfg (environ w))
                           (Itoa (GetDoltServerPort cfg (environ w))) in
  let r := testServerConnection cfg w in
  dialed (snd r) = (dialed w ++ [("tcp", addr, 3 * Second)])%list
  /\ 3 * Second = 3000000000
  /\ (forall w1, DialTimeout "tcp" addr (3 * Second) w = (Returned None, w1) ->
      r = (Returned false, w1))
  /\ (forall conn w1, DialTimeout "tcp" addr (3 * Second) w = (Returned (Some conn), w1) ->
      fst r = Returned true /\ closed (snd r) = (closed w ++ [conn])%list)
  /\ (fst r = Returned true <-> addr ∈ listening w)
  /\ (fst r = Returned false <-> addr ∉ listening w)
  /\ (addr ∉ listening w -> closed (snd r) = closed w)
  /\ metadataJSON (snd r) = metadataJSON w
  /\ textFiles (snd r) = textFiles w
  /\ stdout (snd r) = stdout w
  /\ stderr (snd r) = stderr w.
Proof.
  cbv zeta. rewrite testServerConnection_unfold. unfold DialTimeout.
  cbn [String.eqb Ascii.eqb Bool.eqb andb].
  set (addr := JoinHostPort (GetDoltServerHost cfg (environ w))
                            (Itoa (GetDoltServerPort cfg (environ w)))).
  case_bool_decide as Hlisten; cbn [fst snd dialed closed withNet metadataJSON textFiles
                                      stdout stderr].
  - split_and!; try reflexivity.
    + intros w1 [=].
    + intros conn w1 [= <- <-]. split; reflexivity.
    + split; [intros _; exact Hlisten | reflexivity].
    + split; [discriminate | intros Hn; contradiction].
    + intros Hn; contradiction.
  - split_and!; try reflexivity.
    + intros w1 [= <-]. reflexivity.
    + intros conn w1 [=].
    + split; [discriminate | intros Hl; contradiction].
    + split; [intros _; exact Hlisten | reflexivity].
Qed.

(** The address 192.0.2.1:3307, which nothing listens on. *)
Lemma testServerConnection_dials_with_timeout_witness :
  let cfg := mkConfig "dolt" "server" "beads" "192.0.2.1" 3307 "root" in
  let r := @testServerConnection sampleExternals cfg sampleWorld in
  fst r = Returned false
  /\ dialed (snd r) = [("tcp", "192.0.2.1:3307", 3000000000)].
Proof.
  cbv zeta.
  destruct (@testServerConnection_dials_with_timeout sampleExternals
              (mkConfig "dolt" "server" "beads" "192.0.2.1" 3307 "root") sampleWorld)
    as (Hdial & _ & _ & _ & _ & Hfalse & _).
  split; [|exact Hdial].
  apply Hfalse. vm_compute. intros Hin. discriminate Hin.
Defined.

End DoltCmdProperties.
